(** * MapFlow: polygon value resolution, colour rules and weather fetching

    A shallow embedding of the logic of
      - [src/services/weatherService.ts]  (module [WeatherService]),
      - [src/store/dashboardStore.ts]     (module [DashboardStore]),
      - the two call sites that issue weather fetches,
        [src/components/Dashboard.tsx] and [src/components/TimelineSlider.tsx]
        (module [Components]),
    together with the part of the JavaScript platform these functions call
    (module [JS]: numbers, strings, [Array.prototype.sort], [Date]).

    Conventions.  Finite JavaScript numbers are exact rationals ([Qc]);
    rounding of binary64 arithmetic is not modelled.  Results that may be
    non-finite ([x / 0], [Math.min()] of nothing) live in [jsnum].  Integer
    quantities (hour offsets, array positions, time values in milliseconds)
    are [Z].  A [Date] object is its time value, [None] being the invalid
    date (time value NaN); mutation of a [Date] is explicit state passing.
    Code that may throw returns a [completion]. *)

From Stdlib Require Import QArith Qcanon Ascii.
From stdpp Require Import base decidable option numbers list strings
  gmap fin_maps sorting.

Local Open Scope Z_scope.

(** ** The JavaScript platform *)

Module JS.

(** *** Completions: normal return or a thrown exception *)

Inductive exn := RangeError | TypeError.

Inductive completion (A : Type) :=
  | Normal (a : A)
  | Throw (e : exn).
Arguments Normal {A} a.
Arguments Throw {A} e.

#[global] Instance completion_ret : MRet completion := λ A a, Normal a.

#[global] Instance completion_bind : MBind completion := λ A B k c,
  match c with
  | Normal a => k a
  | Throw e => Throw e
  end.

(** *** Numbers *)

(** A JavaScript number whose value may be non-finite. *)
Inductive jsnum :=
  | Fin (q : Qc)
  | PosInf
  | NegInf
  | NaN.

Definition Qc_of_nat (n : nat) : Qc := Qc_of_Z (Z.of_nat n).

(** [a / b] for finite [a] and [b]. *)
Definition js_div (a b : Qc) : jsnum :=
  if bool_decide (b = 0%Qc) then
    if bool_decide (a = 0%Qc) then NaN
    else if bool_decide (0 < a)%Qc then PosInf else NegInf
  else Fin (a / b)%Qc.

(** [x < y] on numbers; every comparison with NaN is false. *)
Definition js_lt (x y : jsnum) : bool :=
  match x, y with
  | NaN, _ | _, NaN => false
  | Fin a, Fin b => bool_decide (a < b)%Qc
  | NegInf, NegInf => false
  | NegInf, _ => true
  | _, PosInf => match x with PosInf => false | _ => true end
  | _, _ => false
  end.

(** [x === y] on numbers. *)
Definition js_eq (x y : jsnum) : bool :=
  match x, y with
  | Fin a, Fin b => bool_decide (a = b)
  | PosInf, PosInf | NegInf, NegInf => true
  | _, _ => false
  end.

Definition js_gt (x y : jsnum) : bool := js_lt y x.
Definition js_le (x y : jsnum) : bool := js_lt x y || js_eq x y.
Definition js_ge (x y : jsnum) : bool := js_lt y x || js_eq x y.

(** [Math.min(...xs)] and [Math.max(...xs)] on finite arguments: the running
    extremum starts at +∞ (resp. -∞) and is replaced by every argument that
    is strictly smaller (resp. larger). *)
Definition Math_min (xs : list Qc) : jsnum :=
  foldl (λ lowest x, if js_lt (Fin x) lowest then Fin x else lowest) PosInf xs.

Definition Math_max (xs : list Qc) : jsnum :=
  foldl (λ highest x, if js_lt highest (Fin x) then Fin x else highest) NegInf xs.

(** *** Values found in a parsed JSON array typed [number[]] *)

Inductive jsval :=
  | JUndefined
  | JNull
  | JNum (n : jsnum).

(** [ToBoolean]. *)
Definition truthy (v : jsval) : bool :=
  match v with
  | JUndefined | JNull => false
  | JNum NaN => false
  | JNum (Fin q) => bool_decide (q ≠ 0%Qc)
  | JNum _ => true
  end.

(** [a || b]. *)
Definition js_or (a b : jsval) : jsval := if truthy a then a else b.

(** [arr[index]]: reading past the end of an array yields [undefined]. *)
Definition array_get (arr : list jsval) (index : nat) : jsval :=
  default JUndefined (arr !! index).

(** *** [Array.prototype.sort] with a comparator

    The sort is stable.  [comparefn a b < 0] places [a] before [b],
    [> 0] places [b] before [a], and [0] keeps the original order.  For a
    comparator that is a consistent ordering this fixes the result, here
    computed by insertion from the right. *)
Section sort.
Context {A : Type} (comparefn : A → A → Qc).

Fixpoint sort_insert (x : A) (l : list A) : list A :=
  match l with
  | [] => [x]
  | y :: l' =>
      if bool_decide (0 < comparefn x y)%Qc
      then y :: sort_insert x l'
      else x :: y :: l'
  end.

Definition array_sort (l : list A) : list A := foldr sort_insert [] l.
End sort.

(** [arr.filter((d, index) => p d index)]. *)
Fixpoint array_filter_from {A} (p : A → nat → bool) (i : nat) (arr : list A) : list A :=
  match arr with
  | [] => []
  | d :: rest =>
      if p d i then d :: array_filter_from p (S i) rest
      else array_filter_from p (S i) rest
  end.

Definition array_filter {A} (p : A → nat → bool) (arr : list A) : list A :=
  array_filter_from p 0%nat arr.

(** [arr.map((x, index) => f x index)] with a callback that may throw: the
    elements are visited in order and the first exception ends the call. *)
Fixpoint array_map_from {A B} (f : A → nat → completion B) (i : nat) (arr : list A)
    : completion (list B) :=
  match arr with
  | [] => mret []
  | x :: rest =>
      y ← f x i;
      ys ← array_map_from f (S i) rest;
      mret (y :: ys)
  end.

Definition array_map {A B} (f : A → nat → completion B) (arr : list A)
    : completion (list B) :=
  array_map_from f 0%nat arr.

(** [arr[index]] on a value that may be [undefined] ([None]): reading an
    element of [undefined] throws a TypeError. *)
Definition element_get (arr : option (list jsval)) (index : nat) : completion jsval :=
  match arr with
  | None => Throw TypeError
  | Some a => mret (array_get a index)
  end.

(** *** Strings *)

Definition digit (d : Z) : ascii := ascii_of_nat (48 + Z.to_nat d).

(** The [width] low-order decimal digits of [n], most significant first. *)
Fixpoint fixed_dec (width : nat) (n : Z) (acc : string) : string :=
  match width with
  | O => acc
  | S w => fixed_dec w (n `div` 10) (String (digit (n `mod` 10)) acc)
  end.

(** [n.toString()] for an integer [n]; [fuel] bounds the number of digits. *)
Fixpoint nat_digits (fuel : nat) (n : Z) (acc : string) : string :=
  match fuel with
  | O => acc
  | S f =>
      let acc' := String (digit (n `mod` 10)) acc in
      if bool_decide (n < 10) then acc' else nat_digits f (n `div` 10) acc'
  end.

Definition toString (n : Z) : string :=
  if bool_decide (n < 0)
  then "-" +:+ (nat_digits (Z.to_nat (Z.log2 (- n)) + 1) (- n) "")
  else nat_digits (Z.to_nat (Z.log2 n) + 1) n "".

Fixpoint repeat_char (n : nat) (c : ascii) : string :=
  match n with
  | O => ""
  | S n' => String c (repeat_char n' c)
  end.

(** [s.padStart(targetLength, c)] for a one-character pad string. *)
Definition padStart (targetLength : nat) (c : ascii) (s : string) : string :=
  repeat_char (targetLength - String.length s) c +:+ s.

(** [s.split(sep)[0]]: the part of [s] before the first [sep]. *)
Fixpoint split_head (sep : ascii) (s : string) : string :=
  match s with
  | EmptyString => ""
  | String c s' => if bool_decide (c = sep) then "" else String c (split_head sep s')
  end.

(** [s.startsWith(p)]. *)
Definition startsWith (s p : string) : bool := String.prefix p s.

(** *** Dates (ECMAScript, section "Date Objects")

    Time values are milliseconds since 1970-01-01T00:00:00Z.  The local time
    zone is a fixed offset [LocalTZA] (milliseconds east of UTC); daylight
    saving changes are not modelled. *)

Definition msPerSecond : Z := 1000.
Definition msPerMinute : Z := 60000.
Definition msPerHour : Z := 3600000.
Definition msPerDay : Z := 86400000.
Definition maxTime : Z := 8640000000000000.

Definition Day (t : Z) : Z := t `div` msPerDay.
Definition TimeWithinDay (t : Z) : Z := t `mod` msPerDay.

Definition DayFromYear (y : Z) : Z :=
  365 * (y - 1970) + (y - 1969) `div` 4 - (y - 1901) `div` 100 + (y - 1601) `div` 400.

Definition InLeapYear_of (y : Z) : bool :=
  bool_decide (y `mod` 4 = 0) &&
  (negb (bool_decide (y `mod` 100 = 0)) || bool_decide (y `mod` 400 = 0)).

(** The year containing day number [d]: the proleptic Gregorian calendar has
    a period of 146097 days (400 years), counted here from 0000-03-01. *)
Definition YearFromDay (d : Z) : Z :=
  let z := d + 719468 in
  let era := z `div` 146097 in
  let doe := z `mod` 146097 in
  let yoe := (doe - doe `div` 1460 + doe `div` 36524 - doe `div` 146096) `div` 365 in
  let doy := doe - (365 * yoe + yoe `div` 4 - yoe `div` 100) in
  let mp := (5 * doy + 2) `div` 153 in
  yoe + era * 400 + (if bool_decide (mp < 10) then 0 else 1).

Definition YearFromTime (t : Z) : Z := YearFromDay (Day t).
Definition InLeapYear (t : Z) : bool := InLeapYear_of (YearFromTime t).
Definition DayWithinYear (t : Z) : Z := Day t - DayFromYear (YearFromTime t).

(** Day within the year on which month [m] (0 = January) starts. *)
Definition monthStart (leap : bool) (m : Z) : Z :=
  let l := if leap then 1 else 0 in
  match m with
  | 0 => 0
  | 1 => 31
  | 2 => 59 + l
  | 3 => 90 + l
  | 4 => 120 + l
  | 5 => 151 + l
  | 6 => 181 + l
  | 7 => 212 + l
  | 8 => 243 + l
  | 9 => 273 + l
  | 10 => 304 + l
  | _ => 334 + l
  end.

Definition month_of_yday (leap : bool) (d : Z) : Z :=
  let l := if leap then 1 else 0 in
  if bool_decide (d < 31) then 0
  else if bool_decide (d < 59 + l) then 1
  else if bool_decide (d < 90 + l) then 2
  else if bool_decide (d < 120 + l) then 3
  else if bool_decide (d < 151 + l) then 4
  else if bool_decide (d < 181 + l) then 5
  else if bool_decide (d < 212 + l) then 6
  else if bool_decide (d < 243 + l) then 7
  else if bool_decide (d < 273 + l) then 8
  else if bool_decide (d < 304 + l) then 9
  else if bool_decide (d < 334 + l) then 10
  else 11.

Definition MonthFromTime (t : Z) : Z := month_of_yday (InLeapYear t) (DayWithinYear t).

Definition DateFromTime (t : Z) : Z :=
  DayWithinYear t - monthStart (InLeapYear t) (MonthFromTime t) + 1.

Definition HourFromTime (t : Z) : Z := (t `div` msPerHour) `mod` 24.
Definition MinFromTime (t : Z) : Z := (t `div` msPerMinute) `mod` 60.
Definition SecFromTime (t : Z) : Z := (t `div` msPerSecond) `mod` 60.
Definition msFromTime (t : Z) : Z := t `mod` msPerSecond.

Definition MakeTime (hour min sec ms : Z) : Z :=
  hour * msPerHour + min * msPerMinute + sec * msPerSecond + ms.

Definition MakeDay (year month date : Z) : Z :=
  let ym := year + month `div` 12 in
  let mn := month `mod` 12 in
  DayFromYear ym + monthStart (InLeapYear_of ym) mn + date - 1.

Definition MakeDate (day time : Z) : Z := day * msPerDay + time.

Definition TimeClip (t : Z) : option Z :=
  if bool_decide (Z.abs t ≤ maxTime) then Some t else None.

Section local_time.
Variable LocalTZA : Z.

Definition LocalTime (t : Z) : Z := t + LocalTZA.
Definition UTC (t : Z) : Z := t - LocalTZA.

(** [d.getDate()] and [d.getHours()]; NaN ([None]) on an invalid date. *)
Definition getDate (d : option Z) : option Z :=
  t ← d; Some (DateFromTime (LocalTime t)).

Definition getHours (d : option Z) : option Z :=
  t ← d; Some (HourFromTime (LocalTime t)).

(** [d.setDate(dt)]: the new time value of [d]. *)
Definition setDate (d : option Z) (dt : option Z) : option Z :=
  t ← d; dt ← dt;
  let t := LocalTime t in
  let newDate :=
    MakeDate (MakeDay (YearFromTime t) (MonthFromTime t) dt) (TimeWithinDay t) in
  TimeClip (UTC newDate).

(** [d.setHours(h)]: the new time value of [d]. *)
Definition setHours (d : option Z) (h : option Z) : option Z :=
  t ← d; h ← h;
  let t := LocalTime t in
  let date :=
    MakeDate (Day t) (MakeTime h (MinFromTime t) (SecFromTime t) (msFromTime t)) in
  TimeClip (UTC date).
End local_time.

(** [d.getTime()]. *)
Definition getTime (d : option Z) : option Z := d.

(** The year field of [toISOString]: four digits for years 0 to 9999,
    otherwise a sign and six digits. *)
Definition iso_year (y : Z) : string :=
  if bool_decide (0 ≤ y ≤ 9999) then fixed_dec 4 y ""
  else if bool_decide (y < 0) then "-" +:+ fixed_dec 6 (- y) ""
  else "+" +:+ fixed_dec 6 y "".

(** [d.toISOString()]: always in UTC; throws on an invalid date. *)
Definition toISOString (d : option Z) : completion string :=
  match d with
  | None => Throw RangeError
  | Some t =>
      Normal (iso_year (YearFromTime t) +:+ "-" +:+
              fixed_dec 2 (MonthFromTime t + 1) "" +:+ "-" +:+
              fixed_dec 2 (DateFromTime t) "" +:+ "T" +:+
              fixed_dec 2 (HourFromTime t) "" +:+ ":" +:+
              fixed_dec 2 (MinFromTime t) "" +:+ ":" +:+
              fixed_dec 2 (SecFromTime t) "" +:+ "." +:+
              fixed_dec 3 (msFromTime t) "" +:+ "Z")
  end.

(** [a >= b] and [a <= b] on the time values of two dates. *)
Definition date_ge (a b : option Z) : bool :=
  match a, b with
  | Some x, Some y => bool_decide (y ≤ x)
  | _, _ => false
  end.

Definition date_le (a b : option Z) : bool := date_ge b a.

End JS.

Import JS.

(** ** Data model ([src/store/dashboardStore.ts], interfaces) *)

Inductive Operator := OpEq | OpLt | OpGt | OpLe | OpGe.

Record ColorRule := {
  cr_id : string;
  cr_operator : Operator;
  cr_value : Qc;
  cr_color : string;
}.

Record DataSource := {
  ds_id : string;
  ds_name : string;
  ds_field : string;
  ds_colorRules : list ColorRule;
}.

Record BoundingBox := {
  minLat : jsnum;
  maxLat : jsnum;
  minLng : jsnum;
  maxLng : jsnum;
}.

Record Polygon := {
  pg_id : string;
  pg_points : list (Qc * Qc);
  pg_dataSourceId : string;
  pg_color : string;
  pg_name : option string;
  pg_centroid : jsnum * jsnum;
  pg_boundingBox : BoundingBox;
}.

Inductive TimelineMode := single | range.

Record TimelineState := {
  mode : TimelineMode;
  selectedHour : Z;
  selectedRange : Z * Z;
  baseDate : option Z;
}.

(** [WeatherData]; [V] is the run-time type of the [value] field. *)
Record WeatherDataOf (V : Type) := {
  wd_polygonId : string;
  wd_timestamp : string;
  wd_value : V;
}.
Arguments wd_polygonId {V} _.
Arguments wd_timestamp {V} _.
Arguments wd_value {V} _.

Abbreviation WeatherData := (WeatherDataOf Qc).

Record DashboardState := {
  timeline : TimelineState;
  polygons : list Polygon;
  selectedPolygonId : option string;
  drawingMode : bool;
  dataSources : list DataSource;
  weatherData : gmap string (list WeatherData);
  isLoading : bool;
}.

(** ** [src/services/weatherService.ts] *)

Module WeatherService.

(** The [hourly] object of an [OpenMeteoResponse], a
    [Record<string, string[] | number[]>], as [transformWeatherData] reads
    it: [hourly.time] and [hourly[field]], each [None] when the object has no
    such property (the casts [as string[]] and [as number[]] check nothing at
    run time). *)
Record Hourly := {
  timeArray : option (list string);
  valueArray : option (list jsval);
}.

(** The query parameters of one outbound GET to the archive endpoint. *)
Record Request := {
  latitude : jsnum;
  longitude : jsnum;
  start_date : string;
  end_date : string;
  hourly : string;
  timezone : string;
}.

(** [timeArray.map] throws a TypeError when [hourly.time] is missing, and
    [valueArray[index]] does when [hourly[field]] is missing and the callback
    runs at all. *)
Definition transformWeatherData (polygonId : string) (response : Hourly)
    : completion (list (WeatherDataOf jsval)) :=
  match timeArray response with
  | None => Throw TypeError
  | Some timeArray =>
      array_map (λ timestamp index,
                   value ← element_get (valueArray response) index;
                   mret {| wd_polygonId := polygonId;
                           wd_timestamp := timestamp;
                           wd_value := js_or value (JNum (Fin 0%Qc)) |})
                timeArray
  end.

Definition formatDate (date : option Z) : completion string :=
  iso ← toISOString date; mret (split_head "T" iso).

(** The request [fetchWeatherData] sends, or the exception it rejects with
    before anything is sent. *)
Definition fetchWeatherData_request (centroid : jsnum * jsnum)
    (startDate endDate : option Z) (field : string) : completion Request :=
  let '(lat, lng) := centroid in
  start ← formatDate startDate;
  end_ ← formatDate endDate;
  mret {| latitude := lat; longitude := lng;
          start_date := start; end_date := end_;
          hourly := field; timezone := "UTC" |}.

Section with_zone.
Variable LocalTZA : Z.

Definition getDateRange (baseDate : option Z) : option Z * option Z :=
  let startDate := baseDate in
  let startDate := setDate LocalTZA startDate ((λ d, d - 15) <$> getDate LocalTZA startDate) in
  let endDate := baseDate in
  let endDate := setDate LocalTZA endDate ((λ d, d + 15) <$> getDate LocalTZA endDate) in
  (startDate, endDate).
End with_zone.

Definition calculateCentroid (points : list (Qc * Qc)) : jsnum * jsnum :=
  let sumLat := foldl (λ sum p, (sum + p.1)%Qc) 0%Qc points in
  let sumLng := foldl (λ sum p, (sum + p.2)%Qc) 0%Qc points in
  (js_div sumLat (Qc_of_nat (length points)),
   js_div sumLng (Qc_of_nat (length points))).

Definition calculateBoundingBox (points : list (Qc * Qc)) : BoundingBox :=
  let lats := fst <$> points in
  let lngs := snd <$> points in
  {| minLat := Math_min lats;
     maxLat := Math_max lats;
     minLng := Math_min lngs;
     maxLng := Math_max lngs |}.

Definition NO_DATA_COLOR : string := "#gray-400".
Definition DEFAULT_COLOR : string := "#94a3b8".

(** The test performed by one arm of the [switch]. *)
Definition rule_passes (value : jsnum) (rule : ColorRule) : bool :=
  let ruleValue := Fin (cr_value rule) in
  match cr_operator rule with
  | OpEq => js_eq value ruleValue
  | OpLt => js_lt value ruleValue
  | OpGt => js_gt value ruleValue
  | OpLe => js_le value ruleValue
  | OpGe => js_ge value ruleValue
  end.

(** The [for ... of sortedRules] loop, falling through to the default. *)
Fixpoint for_sortedRules (value : jsnum) (sortedRules : list ColorRule) : string :=
  match sortedRules with
  | [] => DEFAULT_COLOR
  | rule :: rest =>
      let ruleValue := Fin (cr_value rule) in
      let color := cr_color rule in
      match cr_operator rule with
      | OpEq => if js_eq value ruleValue then color else for_sortedRules value rest
      | OpLt => if js_lt value ruleValue then color else for_sortedRules value rest
      | OpGt => if js_gt value ruleValue then color else for_sortedRules value rest
      | OpLe => if js_le value ruleValue then color else for_sortedRules value rest
      | OpGe => if js_ge value ruleValue then color else for_sortedRules value rest
      end
  end.

Definition sortRules (colorRules : list ColorRule) : list ColorRule :=
  array_sort (λ a b, (cr_value a - cr_value b)%Qc) colorRules.

Definition getPolygonColor (value : option jsnum) (colorRules : list ColorRule) : string :=
  match value with
  | None => NO_DATA_COLOR
  | Some value => for_sortedRules value (sortRules colorRules)
  end.

Section with_clock.
(** The time value of [new Date()]. *)
Variable now : Z.

Definition isValidDateForAPI (date : option Z) : bool :=
  let minDate := TimeClip (MakeDate (MakeDay 1940 0 1) 0) in
  let maxDate := TimeClip (now - 5 * 24 * 60 * 60 * 1000) in
  date_ge date minDate && date_le date maxDate.
End with_clock.

End WeatherService.

(** ** [src/store/dashboardStore.ts] *)

Module DashboardStore.

Definition colorRule (id : string) (op : Operator) (value : Z) (color : string) : ColorRule :=
  {| cr_id := id; cr_operator := op; cr_value := Qc_of_Z value; cr_color := color |}.

Definition DEFAULT_DATA_SOURCES : list DataSource :=
  [ {| ds_id := "temperature"; ds_name := "Temperature"; ds_field := "temperature_2m";
       ds_colorRules :=
         [ colorRule "1" OpLt 10 "#1890ff"; colorRule "2" OpGe 10 "#52c41a";
           colorRule "3" OpGe 25 "#fa8c16"; colorRule "4" OpGe 35 "#f5222d" ] |};
    {| ds_id := "humidity"; ds_name := "Relative Humidity"; ds_field := "relative_humidity_2m";
       ds_colorRules :=
         [ colorRule "1" OpLt 30 "#ff4d4f"; colorRule "2" OpGe 30 "#fa8c16";
           colorRule "3" OpGe 60 "#52c41a"; colorRule "4" OpGe 80 "#1890ff" ] |};
    {| ds_id := "precipitation"; ds_name := "Precipitation"; ds_field := "precipitation";
       ds_colorRules :=
         [ colorRule "1" OpEq 0 "#f0f0f0"; colorRule "2" OpGt 0 "#52c41a";
           colorRule "3" OpGe 2 "#1890ff"; colorRule "4" OpGe 10 "#722ed1" ] |};
    {| ds_id := "wind_speed"; ds_name := "Wind Speed"; ds_field := "wind_speed_10m";
       ds_colorRules :=
         [ colorRule "1" OpLt 5 "#52c41a"; colorRule "2" OpGe 5 "#fa8c16";
           colorRule "3" OpGe 15 "#ff4d4f"; colorRule "4" OpGe 25 "#722ed1" ] |} ].

(** The initial state of the store; [now] is the time value of the
    [new Date()] evaluated when the store is created. *)
Definition initialState (now : Z) : DashboardState :=
  {| timeline :=
       {| mode := single; selectedHour := 360; selectedRange := (350, 370);
          baseDate := Some now |};
     polygons := [];
     selectedPolygonId := None;
     drawingMode := false;
     dataSources := DEFAULT_DATA_SOURCES;
     weatherData := ∅;
     isLoading := false |}.

Definition setWeatherData (polygonId : string) (data : list WeatherData)
    (state : DashboardState) : DashboardState :=
  let newWeatherData := <[polygonId := data]> (weatherData state) in
  {| timeline := timeline state;
     polygons := polygons state;
     selectedPolygonId := selectedPolygonId state;
     drawingMode := drawingMode state;
     dataSources := dataSources state;
     weatherData := newWeatherData;
     isLoading := isLoading state |}.

Definition removePolygon (id : string) (state : DashboardState) : DashboardState :=
  {| timeline := timeline state;
     polygons := filter (λ p, pg_id p ≠ id) (polygons state);
     selectedPolygonId :=
       if bool_decide (selectedPolygonId state = Some id) then None
       else selectedPolygonId state;
     drawingMode := drawingMode state;
     dataSources := dataSources state;
     weatherData := weatherData state;
     isLoading := isLoading state |}.

(** [n.toString()] for the result of [getHours()]. *)
Definition hours_toString (n : option Z) : string :=
  match n with
  | None => "NaN"
  | Some n => toString n
  end.

Section with_zone.
Variable LocalTZA : Z.

(** The [Date] mutations of the single-mode branch. *)
Definition targetDate_of (baseDate : option Z) (targetHour : Z) : option Z :=
  let targetDate := baseDate in
  let targetDate :=
    setDate LocalTZA targetDate ((λ d, d - 15) <$> getDate LocalTZA targetDate) in
  let targetDate := setHours LocalTZA targetDate (Some (targetHour `rem` 24)) in
  let targetDate :=
    setDate LocalTZA targetDate
      ((λ d, d + targetHour `div` 24) <$> getDate LocalTZA targetDate) in
  targetDate.

Definition targetTimestamp_of (targetDate : option Z) : completion string :=
  iso ← toISOString targetDate;
  mret (split_head "T" iso +:+ "T" +:+
        padStart 2 "0" (hours_toString (getHours LocalTZA targetDate)) +:+ ":00").

Definition getPolygonCurrentValue (state : DashboardState) (polygonId : string)
    : completion (option jsnum) :=
  match weatherData state !! polygonId with
  | None => mret None
  | Some data =>
      if bool_decide (length data = 0%nat) then mret None
      else
        match mode (timeline state) with
        | single =>
            let targetHour := selectedHour (timeline state) in
            let targetDate := targetDate_of (baseDate (timeline state)) targetHour in
            targetTimestamp ← targetTimestamp_of targetDate;
            let record :=
              find (λ d, startsWith (wd_timestamp d) targetTimestamp) data in
            mret ((λ d, Fin (wd_value d)) <$> record)
        | range =>
            let '(startHour, endHour) := selectedRange (timeline state) in
            let relevantData :=
              array_filter
                (λ d index, bool_decide (startHour ≤ Z.of_nat index) &&
                            bool_decide (Z.of_nat index ≤ endHour))
                data in
            if bool_decide (length relevantData = 0%nat) then mret None
            else
              let sum := foldl (λ acc d, (acc + wd_value d)%Qc) 0%Qc relevantData in
              mret (Some (js_div sum (Qc_of_nat (length relevantData))))
        end
  end.
End with_zone.

(** *** The remaining actions of the store *)

Definition with_timeline (tl : TimelineState) (state : DashboardState) : DashboardState :=
  {| timeline := tl;
     polygons := polygons state;
     selectedPolygonId := selectedPolygonId state;
     drawingMode := drawingMode state;
     dataSources := dataSources state;
     weatherData := weatherData state;
     isLoading := isLoading state |}.

Definition setTimelineMode (m : TimelineMode) (state : DashboardState) : DashboardState :=
  with_timeline
    {| mode := m;
       selectedHour := selectedHour (timeline state);
       selectedRange := selectedRange (timeline state);
       baseDate := baseDate (timeline state) |} state.

Definition setSelectedHour (hour : Z) (state : DashboardState) : DashboardState :=
  with_timeline
    {| mode := mode (timeline state);
       selectedHour := hour;
       selectedRange := selectedRange (timeline state);
       baseDate := baseDate (timeline state) |} state.

Definition setSelectedRange (r : Z * Z) (state : DashboardState) : DashboardState :=
  with_timeline
    {| mode := mode (timeline state);
       selectedHour := selectedHour (timeline state);
       selectedRange := r;
       baseDate := baseDate (timeline state) |} state.

Definition with_polygons (ps : list Polygon) (state : DashboardState) : DashboardState :=
  {| timeline := timeline state;
     polygons := ps;
     selectedPolygonId := selectedPolygonId state;
     drawingMode := drawingMode state;
     dataSources := dataSources state;
     weatherData := weatherData state;
     isLoading := isLoading state |}.

Definition with_dataSources (ds : list DataSource) (state : DashboardState) : DashboardState :=
  {| timeline := timeline state;
     polygons := polygons state;
     selectedPolygonId := selectedPolygonId state;
     drawingMode := drawingMode state;
     dataSources := ds;
     weatherData := weatherData state;
     isLoading := isLoading state |}.

(** [Omit<Polygon, 'id' | 'color'>], the argument of [addPolygon]. *)
Record PolygonData := {
  pd_points : list (Qc * Qc);
  pd_dataSourceId : string;
  pd_name : option string;
  pd_centroid : jsnum * jsnum;
  pd_boundingBox : BoundingBox;
}.

(** The id built from a reading [now] of [Date.now()]. *)
Definition polygon_id_at (now : Z) : string := "polygon_" +:+ toString now.

(** [addPolygon]; [now] is the value of [Date.now()].  Reading [.id] of the
    first data source throws when there is none, which happens only when the
    given data source id is falsy (the empty string). *)
Definition addPolygon (now : Z) (polygonData : PolygonData) (state : DashboardState)
    : completion DashboardState :=
  let id := polygon_id_at now in
  let defaultDataSource := head (dataSources state) in
  dataSourceId ←
    (if bool_decide (pd_dataSourceId polygonData ≠ "")
     then Normal (pd_dataSourceId polygonData)
     else match defaultDataSource with
          | Some ds => Normal (ds_id ds)
          | None => Throw TypeError
          end);
  let polygon :=
    {| pg_id := id;
       pg_color := "#1890ff";
       pg_points := pd_points polygonData;
       pg_name := pd_name polygonData;
       pg_centroid := pd_centroid polygonData;
       pg_boundingBox := pd_boundingBox polygonData;
       pg_dataSourceId := dataSourceId |} in
  mret (with_polygons (polygons state ++ [polygon]) state).

(** [Partial<Polygon>]: the fields an update carries. *)
Record PolygonUpdates := {
  up_id : option string;
  up_points : option (list (Qc * Qc));
  up_dataSourceId : option string;
  up_color : option string;
  up_name : option string;
  up_centroid : option (jsnum * jsnum);
  up_boundingBox : option BoundingBox;
}.

Definition no_updates : PolygonUpdates :=
  {| up_id := None; up_points := None; up_dataSourceId := None; up_color := None;
     up_name := None; up_centroid := None; up_boundingBox := None |}.

(** [{ ...p, ...updates }]. *)
Definition spread_polygon (p : Polygon) (updates : PolygonUpdates) : Polygon :=
  {| pg_id := default (pg_id p) (up_id updates);
     pg_points := default (pg_points p) (up_points updates);
     pg_dataSourceId := default (pg_dataSourceId p) (up_dataSourceId updates);
     pg_color := default (pg_color p) (up_color updates);
     pg_name := match up_name updates with Some n => Some n | None => pg_name p end;
     pg_centroid := default (pg_centroid p) (up_centroid updates);
     pg_boundingBox := default (pg_boundingBox p) (up_boundingBox updates) |}.

Definition updatePolygon (id : string) (updates : PolygonUpdates) (state : DashboardState)
    : DashboardState :=
  with_polygons
    ((λ p, if bool_decide (pg_id p = id) then spread_polygon p updates else p)
       <$> polygons state)
    state.

Definition setSelectedPolygonId (id : option string) (state : DashboardState) : DashboardState :=
  {| timeline := timeline state;
     polygons := polygons state;
     selectedPolygonId := id;
     drawingMode := drawingMode state;
     dataSources := dataSources state;
     weatherData := weatherData state;
     isLoading := isLoading state |}.

Definition setDrawingMode (enabled : bool) (state : DashboardState) : DashboardState :=
  {| timeline := timeline state;
     polygons := polygons state;
     selectedPolygonId := selectedPolygonId state;
     drawingMode := enabled;
     dataSources := dataSources state;
     weatherData := weatherData state;
     isLoading := isLoading state |}.

(** [Omit<DataSource, 'id'>] and [Partial<DataSource>]. *)
Record DataSourceData := {
  dd_name : string;
  dd_field : string;
  dd_colorRules : list ColorRule;
}.

Record DataSourceUpdates := {
  du_id : option string;
  du_name : option string;
  du_field : option string;
  du_colorRules : option (list ColorRule);
}.

Definition addDataSource (now : Z) (dataSourceData : DataSourceData) (state : DashboardState)
    : DashboardState :=
  let id := "datasource_" +:+ toString now in
  let dataSource :=
    {| ds_id := id; ds_name := dd_name dataSourceData; ds_field := dd_field dataSourceData;
       ds_colorRules := dd_colorRules dataSourceData |} in
  with_dataSources (dataSources state ++ [dataSource]) state.

Definition spread_dataSource (ds : DataSource) (updates : DataSourceUpdates) : DataSource :=
  {| ds_id := default (ds_id ds) (du_id updates);
     ds_name := default (ds_name ds) (du_name updates);
     ds_field := default (ds_field ds) (du_field updates);
     ds_colorRules := default (ds_colorRules ds) (du_colorRules updates) |}.

Definition updateDataSource (id : string) (updates : DataSourceUpdates) (state : DashboardState)
    : DashboardState :=
  with_dataSources
    ((λ ds, if bool_decide (ds_id ds = id) then spread_dataSource ds updates else ds)
       <$> dataSources state)
    state.

End DashboardStore.

(** ** The call sites that fetch weather data

    Each function returns the outbound requests it issues, in order; what is
    done with the responses is not modelled. *)

Module Components.
Import WeatherService.

Definition issue (c : completion Request) : list Request :=
  match c with
  | Normal r => [r]
  | Throw _ => []
  end.

(** [addDays] and [addHours] of the date-fns library. *)
Definition addDays (LocalTZA : Z) (date : option Z) (amount : Z) : option Z :=
  if bool_decide (amount = 0) then date
  else setDate LocalTZA date ((λ d, d + amount) <$> getDate LocalTZA date).

Definition addHours (date : option Z) (amount : Z) : option Z :=
  t ← date; TimeClip (t + amount * msPerHour).

Section with_env.
Variables (LocalTZA now : Z).

(** [src/components/TimelineSlider.tsx], [TimelineSlider]: the date the
    slider shows for an hour offset. *)
Definition getDateFromHour (state : DashboardState) (hour : Z) : option Z :=
  let baseDate := baseDate (timeline state) in
  let startDate := addDays LocalTZA baseDate (-15) in
  addHours startDate hour.

(** [src/components/TimelineSlider.tsx], [MapComponent]: called from
    [createPolygon] for every newly drawn polygon. *)
Definition fetchWeatherDataForPolygon (state : DashboardState)
    (polygonId : string) (centroid : jsnum * jsnum) (dataSourceId : string)
    : list Request :=
  match find (λ ds, bool_decide (ds_id ds = dataSourceId)) (dataSources state) with
  | None => []
  | Some dataSource =>
      let '(startDate, endDate) := getDateRange LocalTZA (baseDate (timeline state)) in
      issue (fetchWeatherData_request centroid startDate endDate (ds_field dataSource))
  end.

(** [src/components/Dashboard.tsx]: run when the base date, the polygons or
    the data sources change. *)
Definition fetchWeatherDataForAllPolygons (state : DashboardState) : list Request :=
  if bool_decide (length (polygons state) = 0%nat) then []
  else
    let '(startDate, endDate) := getDateRange LocalTZA (baseDate (timeline state)) in
    if negb (isValidDateForAPI now startDate) || negb (isValidDateForAPI now endDate)
    then []
    else
      polygon ← polygons state;
      match find (λ ds, bool_decide (ds_id ds = pg_dataSourceId polygon))
                 (dataSources state) with
      | None => []
      | Some dataSource =>
          issue (fetchWeatherData_request (pg_centroid polygon) startDate endDate
                   (ds_field dataSource))
      end.
End with_env.

(** *** [src/components/TimelineSlider.tsx], [TimelineSlider]: the slider *)

Definition totalHours : Z := 30 * 24.
Definition minHour : Z := 0.
Definition maxHour : Z := totalHours - 1.

(** The hours at which a day mark may be drawn:
    [Array.from({ length: 31 }, (_, i) => i * 24)]. *)
Definition markHours : list Z := (λ i, Z.of_nat i * 24) <$> seq 0 31.

(** Whether [renderMark hour] draws a mark (it returns [null] unless the date
    of the hour has local hour 0). *)
Definition renderMark_shown (LocalTZA : Z) (state : DashboardState) (hour : Z) : bool :=
  let date := getDateFromHour LocalTZA state hour in
  match getHours LocalTZA date with
  | Some 0 => true
  | _ => false
  end.

(** The "Now", "Last 24h" and "Last Week" buttons. *)
Definition nowButton (state : DashboardState) : DashboardState :=
  let currentHour := 15 * 24 in
  match mode (timeline state) with
  | single => DashboardStore.setSelectedHour currentHour state
  | range => DashboardStore.setSelectedRange (currentHour - 12, currentHour + 12) state
  end.

Definition last24hButton (state : DashboardState) : DashboardState :=
  let current := (selectedRange (timeline state)).2 in
  DashboardStore.setSelectedRange (Z.max 0 (current - 23), current) state.

Definition lastWeekButton (state : DashboardState) : DashboardState :=
  let current := (selectedRange (timeline state)).2 in
  DashboardStore.setSelectedRange (Z.max 0 (current - 167), current) state.

(** The "Duration: n hours" label of range mode. *)
Definition durationHours (state : DashboardState) : Z :=
  (selectedRange (timeline state)).2 - (selectedRange (timeline state)).1 + 1.

(** *** [src/components/TimelineSlider.tsx], [MapComponent] *)

Section map_component.
Variable LocalTZA : Z.

(** [createPolygon].  [now1] is the reading of [Date.now()] inside
    [addPolygon], [now2] the later reading in [createPolygon] itself;
    [response] is the series the fetch resolves with, [None] when it fails. *)
Definition createPolygon (now1 now2 : Z) (points : list (Qc * Qc)) (dataSourceId : string)
    (response : option (list WeatherData)) (state : DashboardState) : DashboardState :=
  let centroid := calculateCentroid points in
  let boundingBox := calculateBoundingBox points in
  match DashboardStore.addPolygon now1
          {| DashboardStore.pd_points := points;
             DashboardStore.pd_dataSourceId := dataSourceId;
             DashboardStore.pd_centroid := centroid;
             DashboardStore.pd_boundingBox := boundingBox;
             DashboardStore.pd_name :=
               Some ("Polygon " +:+ toString (Z.of_nat (length (polygons state)) + 1)) |}
          state with
  | Throw _ => state
  | Normal state1 =>
      let polygonId := DashboardStore.polygon_id_at now2 in
      match fetchWeatherDataForPolygon LocalTZA state polygonId centroid dataSourceId,
            response with
      | _ :: _, Some weatherData => DashboardStore.setWeatherData polygonId weatherData state1
      | _, _ => state1
      end
  end.

Definition handleUpdatePolygonPoints (polygonId : string) (newPoints : list (Qc * Qc))
    (state : DashboardState) : DashboardState :=
  let centroid := calculateCentroid newPoints in
  let boundingBox := calculateBoundingBox newPoints in
  DashboardStore.updatePolygon polygonId
    {| DashboardStore.up_id := None;
       DashboardStore.up_points := Some newPoints;
       DashboardStore.up_dataSourceId := None;
       DashboardStore.up_color := None;
       DashboardStore.up_name := None;
       DashboardStore.up_centroid := Some centroid;
       DashboardStore.up_boundingBox := Some boundingBox |}
    state.

(** The component's own [getPolygonColor (polygonId)], used to paint the map. *)
Definition mapPolygonColor (state : DashboardState) (polygonId : string) : completion string :=
  match find (λ p, bool_decide (pg_id p = polygonId)) (polygons state) with
  | None => mret "#1890ff"
  | Some polygon =>
      match find (λ ds, bool_decide (ds_id ds = pg_dataSourceId polygon))
                 (dataSources state) with
      | None => mret "#1890ff"
      | Some dataSource =>
          currentValue ← DashboardStore.getPolygonCurrentValue LocalTZA state polygonId;
          mret (getPolygonColor currentValue (ds_colorRules dataSource))
      end
  end.

(** *** [src/components/Dashboard.tsx]: the colour effect

    [polygons.forEach] over the rendered snapshot; every [updatePolygon]
    acts on the store. *)
Definition updatePolygonColors_step (snapshot : DashboardState)
    (acc : completion DashboardState) (polygon : Polygon) : completion DashboardState :=
  store ← acc;
  match find (λ ds, bool_decide (ds_id ds = pg_dataSourceId polygon))
             (dataSources snapshot) with
  | None => mret store
  | Some dataSource =>
      currentValue ← DashboardStore.getPolygonCurrentValue LocalTZA store (pg_id polygon);
      let newColor := getPolygonColor currentValue (ds_colorRules dataSource) in
      if bool_decide (newColor ≠ pg_color polygon)
      then mret (DashboardStore.updatePolygon (pg_id polygon)
                   {| DashboardStore.up_id := None;
                      DashboardStore.up_points := None;
                      DashboardStore.up_dataSourceId := None;
                      DashboardStore.up_color := Some newColor;
                      DashboardStore.up_name := None;
                      DashboardStore.up_centroid := None;
                      DashboardStore.up_boundingBox := None |}
                   store)
      else mret store
  end.

Definition updatePolygonColors (snapshot : DashboardState) : completion DashboardState :=
  foldl (updatePolygonColors_step snapshot) (Normal snapshot) (polygons snapshot).
End map_component.

(** *** The colour legend ([ColorLegend])

    The legend sorts the rule array of the data source it shows in place, so
    rendering it changes that array in the store. *)
Definition legendIndex (state : DashboardState) : option nat :=
  let selectedPolygon :=
    match selectedPolygonId state with
    | Some id =>
        if bool_decide (id ≠ "")
        then find (λ p, bool_decide (pg_id p = id)) (polygons state)
        else None
    | None => None
    end in
  match selectedPolygon with
  | Some p => fst <$> list_find (λ ds, ds_id ds = pg_dataSourceId p) (dataSources state)
  | None => match dataSources state with [] => None | _ :: _ => Some 0%nat end
  end.

Definition sortInPlace (ds : DataSource) : DataSource :=
  {| ds_id := ds_id ds; ds_name := ds_name ds; ds_field := ds_field ds;
     ds_colorRules := sortRules (ds_colorRules ds) |}.

(** The store after the legend has rendered, and the rules it lists in order
    ([None] when it renders nothing). *)
Definition legendRender (state : DashboardState) : DashboardState * option (list ColorRule) :=
  match legendIndex state with
  | None => (state, None)
  | Some i =>
      match dataSources state !! i with
      | None => (state, None)
      | Some currentDataSource =>
          if bool_decide (length (ds_colorRules currentDataSource) = 0%nat)
          then (state, None)
          else
            (DashboardStore.with_dataSources (alter sortInPlace i (dataSources state)) state,
             Some (sortRules (ds_colorRules currentDataSource)))
      end
  end.

(** *** The sidebar ([DataSourceCard]) *)

Definition colorRules_update (rules : list ColorRule) : DashboardStore.DataSourceUpdates :=
  {| DashboardStore.du_id := None; DashboardStore.du_name := None;
     DashboardStore.du_field := None; DashboardStore.du_colorRules := Some rules |}.

(** The rule "Add Rule" appends; [now] is the value of [Date.now()]. *)
Definition newRule (now : Z) : ColorRule :=
  {| cr_id := "rule_" +:+ toString now; cr_operator := OpGe; cr_value := 0%Qc;
     cr_color := "#1890ff" |}.

Definition handleAddRule (now : Z) (dataSource : DataSource) (state : DashboardState)
    : DashboardState :=
  DashboardStore.updateDataSource (ds_id dataSource)
    (colorRules_update (ds_colorRules dataSource ++ [newRule now])) state.

Definition handleUpdateRule (updatedRule : ColorRule) (dataSource : DataSource)
    (state : DashboardState) : DashboardState :=
  DashboardStore.updateDataSource (ds_id dataSource)
    (colorRules_update
       ((λ rule, if bool_decide (cr_id rule = cr_id updatedRule) then updatedRule else rule)
          <$> ds_colorRules dataSource))
    state.

Definition handleDeleteRule (ruleId : string) (dataSource : DataSource)
    (state : DashboardState) : DashboardState :=
  DashboardStore.updateDataSource (ds_id dataSource)
    (colorRules_update (filter (λ rule, cr_id rule ≠ ruleId) (ds_colorRules dataSource)))
    state.

(** [getDataSourceUsage]. *)
Definition getDataSourceUsage (state : DashboardState) (dataSourceId : string) : nat :=
  length (filter (λ p, pg_dataSourceId p = dataSourceId) (polygons state)).

End Components.

(** ** Specification vocabulary *)

Module Spec.
Import WeatherService.

(** The standard numeric comparison a rule denotes, for a finite value. *)
Definition satisfies (x : Qc) (r : ColorRule) : Prop :=
  match cr_operator r with
  | OpEq => x = cr_value r
  | OpLt => (x < cr_value r)%Qc
  | OpGt => (cr_value r < x)%Qc
  | OpLe => (x ≤ cr_value r)%Qc
  | OpGe => (cr_value r ≤ x)%Qc
  end.

Definition threshold_le (a b : ColorRule) : Prop := (cr_value a ≤ cr_value b)%Qc.

(** The rules of [l] whose threshold is [t], in the order they have in [l]. *)
Definition with_threshold (t : Qc) (l : list ColorRule) : list ColorRule :=
  filter (λ r, cr_value r = t) l.

Definition rule (op : Operator) (threshold : Z) (color : string) : ColorRule :=
  {| cr_id := ""; cr_operator := op; cr_value := Qc_of_Z threshold; cr_color := color |}.

(** The rule set of the spec's precedence example. *)
Definition example_rules : list ColorRule :=
  [rule OpLt 10 "A"; rule OpGe 10 "B"; rule OpGe 25 "C"].

(** Arithmetic mean of a list of numbers. *)
Definition total (xs : list Qc) : Qc := foldr Qcplus 0%Qc xs.
Definition mean (xs : list Qc) : Qc := (total xs / Qc_of_nat (length xs))%Qc.

Definition is_least (m : Qc) (xs : list Qc) : Prop :=
  m ∈ xs ∧ ∀ x, x ∈ xs → (m ≤ x)%Qc.
Definition is_greatest (m : Qc) (xs : list Qc) : Prop :=
  m ∈ xs ∧ ∀ x, x ∈ xs → (x ≤ m)%Qc.

Definition point (lat lng : Z) : Qc * Qc := (Qc_of_Z lat, Qc_of_Z lng).

(** The square of the spec's geometry example. *)
Definition square : list (Qc * Qc) := [point 0 0; point 0 2; point 2 2; point 2 0].

(** The entries of [data] at positions [s] to [e], both included. *)
Definition slice {A} (s e : Z) (data : list A) : list A :=
  take (Z.to_nat (e + 1 - Z.max 0 s)) (drop (Z.to_nat s) data).

(** Example states: one polygon ["polygon_1"] over the store's defaults. *)
Definition reading (timestamp : string) (value : Z) : WeatherData :=
  {| wd_polygonId := "polygon_1"; wd_timestamp := timestamp; wd_value := Qc_of_Z value |}.

Definition triangle : list (Qc * Qc) := [point 0 0; point 4 0; point 2 3].

Definition polygon_1 : Polygon :=
  {| pg_id := "polygon_1";
     pg_points := triangle;
     pg_dataSourceId := "temperature";
     pg_color := "#1890ff";
     pg_name := Some "Polygon 1";
     pg_centroid := calculateCentroid triangle;
     pg_boundingBox := calculateBoundingBox triangle |}.

Definition state_with (tl : TimelineState) (data : list WeatherData) : DashboardState :=
  {| timeline := tl;
     polygons := [polygon_1];
     selectedPolygonId := Some "polygon_1";
     drawingMode := false;
     dataSources := DashboardStore.DEFAULT_DATA_SOURCES;
     weatherData := {[ "polygon_1" := data ]};
     isLoading := false |}.

(** 2024-01-16T10:00:00.000Z and 2024-06-15T12:00:00.000Z. *)
Definition t_2024_01_16_10h : Z := 1705399200000.
Definition t_2024_06_15_12h : Z := 1718452800000.

Definition single_at (base : option Z) (hour : Z) : TimelineState :=
  {| mode := single; selectedHour := hour; selectedRange := (350, 370); baseDate := base |}.

Definition range_at (base : option Z) (s e : Z) : TimelineState :=
  {| mode := range; selectedHour := 360; selectedRange := (s, e); baseDate := base |}.

(** The calendar date of [toISOString] ("YYYY-MM-DD") and the hour stamp
    "<date>T<HH>:00" of an instant, both in UTC. *)
Definition isoDate (t : Z) : string :=
  iso_year (YearFromTime t) +:+ "-" +:+
  fixed_dec 2 (MonthFromTime t + 1) "" +:+ "-" +:+
  fixed_dec 2 (DateFromTime t) "".

Definition hourStamp (t : Z) : string :=
  isoDate t +:+ "T" +:+ fixed_dec 2 (HourFromTime t) "" +:+ ":00".

(** The number a string of decimal digits denotes. *)
Definition decimal_value (s : string) : Z :=
  foldl (λ acc c, 10 * acc + (Z.of_nat (nat_of_ascii c) - 48)) 0
    (String.list_ascii_of_string s).

(** The derived geometry of a polygon agrees with its vertices. *)
Definition geometry_consistent (p : Polygon) : Prop :=
  pg_centroid p = calculateCentroid (pg_points p) ∧
  pg_boundingBox p = calculateBoundingBox (pg_points p).

(** The invariant of a timeline selection: offsets inside the 720-hour
    window, range not reversed. *)
Definition timeline_ok (tl : TimelineState) : Prop :=
  0 ≤ selectedHour tl ≤ 719 ∧
  0 ≤ (selectedRange tl).1 ∧ (selectedRange tl).1 ≤ (selectedRange tl).2 ∧
  (selectedRange tl).2 ≤ 719.

(** A store whose first data source, the one the legend shows while no
    polygon is selected, has its rules out of order. *)
Definition legend_state : DashboardState :=
  DashboardStore.with_dataSources
    [ {| ds_id := "temperature"; ds_name := "Temperature"; ds_field := "temperature_2m";
         ds_colorRules := [rule OpGe 25 "C"; rule OpGe 10 "B"; rule OpLt 10 "A"] |};
      {| ds_id := "humidity"; ds_name := "Relative Humidity";
         ds_field := "relative_humidity_2m";
         ds_colorRules := [rule OpGe 30 "A"; rule OpLt 30 "B"] |} ]
    (DashboardStore.initialState t_2024_06_15_12h).

(** What the colour effect may change of a polygon: nothing but its colour,
    which becomes the rule colour of the polygon's current value under the
    first data source carrying its data source id, and stays as it was when
    there is no such data source. *)
Definition same_but_color (p q : Polygon) : Prop :=
  pg_id q = pg_id p ∧ pg_points q = pg_points p ∧
  pg_dataSourceId q = pg_dataSourceId p ∧ pg_name q = pg_name p ∧
  pg_centroid q = pg_centroid p ∧ pg_boundingBox q = pg_boundingBox p.

Definition repainted (tz : Z) (snapshot : DashboardState) (p q : Polygon) : Prop :=
  same_but_color p q ∧
  match find (λ ds, bool_decide (ds_id ds = pg_dataSourceId p)) (dataSources snapshot) with
  | None => pg_color q = pg_color p
  | Some ds =>
      ∃ v, DashboardStore.getPolygonCurrentValue tz snapshot (pg_id p) = Normal v ∧
           pg_color q = getPolygonColor v (ds_colorRules ds)
  end.

End Spec.

(** ** Properties of the platform model *)

Section sort_facts.
Context {A : Type} (key : A → Qc).

Let by_key (a b : A) : Qc := (key a - key b)%Qc.
Let key_le (a b : A) : Prop := (key a ≤ key b)%Qc.

Lemma by_key_pos (x y : A) : (0 < by_key x y)%Qc ↔ (key y < key x)%Qc.
Proof. unfold by_key. symmetry. apply Qclt_minus_iff. Qed.

Lemma sort_insert_perm (x : A) (l : list A) : sort_insert by_key x l ≡ₚ x :: l.
Proof.
  induction l as [|y l IH]; simpl; [done|].
  case_bool_decide; [|done].
  rewrite IH. apply Permutation_swap.
Qed.

Lemma array_sort_perm (l : list A) : array_sort by_key l ≡ₚ l.
Proof.
  induction l as [|x l IH]; simpl; [done|].
  rewrite sort_insert_perm. by f_equiv.
Qed.

Lemma sort_insert_sorted (x : A) (l : list A) :
  StronglySorted key_le l → StronglySorted key_le (sort_insert by_key x l).
Proof.
  induction 1 as [|y l Hl IH Hy]; simpl.
  - repeat constructor.
  - case_bool_decide as Hc.
    + apply by_key_pos in Hc. constructor; [done|].
      rewrite sort_insert_perm. constructor; [|done].
      by apply Qclt_le_weak.
    + rewrite by_key_pos in Hc. apply Qcnot_lt_le in Hc.
      constructor; [by constructor|].
      constructor; [done|].
      eapply Forall_impl; [exact Hy|].
      intros z Hz. unfold key_le in *. by eapply Qcle_trans.
Qed.

Lemma array_sort_sorted (l : list A) : StronglySorted key_le (array_sort by_key l).
Proof.
  induction l as [|x l IH]; simpl; [constructor|].
  by apply sort_insert_sorted.
Qed.

Lemma sort_insert_stable (t : Qc) (x : A) (l : list A) :
  filter (λ a, key a = t) (sort_insert by_key x l) = filter (λ a, key a = t) (x :: l).
Proof.
  induction l as [|y l IH]; simpl; [done|].
  case_bool_decide as Hc; [|done].
  apply by_key_pos in Hc.
  rewrite (filter_cons _ y), IH, !filter_cons.
  repeat case_decide; try done.
  subst. by apply Qclt_not_eq in Hc.
Qed.

Lemma array_sort_stable (t : Qc) (l : list A) :
  filter (λ a, key a = t) (array_sort by_key l) = filter (λ a, key a = t) l.
Proof.
  induction l as [|x l IH]; simpl; [done|].
  rewrite sort_insert_stable, !filter_cons, IH. done.
Qed.

(** With pairwise distinct keys the sorted order does not depend on the
    order of the input. *)

End sort_facts.

(** ** The threshold rule evaluator *)

Section evaluator.
Import WeatherService Spec.

Lemma sortRules_perm (R : list ColorRule) : sortRules R ≡ₚ R.
Proof. apply (array_sort_perm cr_value). Qed.

Lemma sortRules_sorted (R : list ColorRule) : StronglySorted threshold_le (sortRules R).
Proof. apply (array_sort_sorted cr_value). Qed.

Lemma sortRules_stable (t : Qc) (R : list ColorRule) :
  with_threshold t (sortRules R) = with_threshold t R.
Proof. apply (array_sort_stable cr_value). Qed.

Lemma for_sortedRules_find (v : jsnum) (S : list ColorRule) :
  for_sortedRules v S =
    match find (rule_passes v) S with
    | Some r => cr_color r
    | None => DEFAULT_COLOR
    end.
Proof.
  induction S as [|r S IH]; simpl; [done|].
  unfold rule_passes at 1.
  destruct (cr_operator r); simpl;
    match goal with |- context [if ?b then _ else _] => destruct b end; done.
Qed.

Lemma for_sortedRules_none (v : jsnum) (S : list ColorRule) :
  Forall (λ r, rule_passes v r = false) S → for_sortedRules v S = DEFAULT_COLOR.
Proof.
  rewrite for_sortedRules_find.
  induction 1 as [|r S Hr _ IH]; simpl; [done|]. by rewrite Hr.
Qed.

Lemma for_sortedRules_in (v : jsnum) (S : list ColorRule) :
  for_sortedRules v S = DEFAULT_COLOR ∨ for_sortedRules v S ∈ cr_color <$> S.
Proof.
  rewrite for_sortedRules_find.
  destruct (find (rule_passes v) S) as [r|] eqn:Hf; [right|by left].
  apply find_some in Hf as [Hin _].
  apply list_elem_of_fmap_2. by apply list_elem_of_In.
Qed.

Lemma rule_passes_satisfies (x : Qc) (r : ColorRule) :
  rule_passes (Fin x) r = true ↔ satisfies x r.
Proof.
  unfold rule_passes, satisfies, js_le, js_ge, js_gt.
  destruct (cr_operator r); simpl;
    rewrite ?orb_true_iff, ?bool_decide_eq_true; try done.
  - split; [intros [?| ->]|intros [?| ->]%Qcle_lt_or_eq]; auto using Qclt_le_weak, Qcle_refl.
  - split; [intros [?| ->]|intros [?| ->]%Qcle_lt_or_eq]; auto using Qclt_le_weak, Qcle_refl.
Qed.
Lemma find_sorted_least (v : jsnum) (S : list ColorRule) (w : ColorRule) :
  StronglySorted threshold_le S → find (rule_passes v) S = Some w →
  ∀ r, r ∈ S → rule_passes v r = true → threshold_le w r.
Proof.
  induction 1 as [|x S HS IH Hx]; simpl; [done|].
  destruct (rule_passes v x) eqn:Hpx.
  - intros [= <-] r [->|Hr]%elem_of_cons _; [apply Qcle_refl|].
    by apply (proj1 (Forall_forall _ _) Hx).
  - intros Hf r [->|Hr]%elem_of_cons Hp; [congruence|]. by apply IH.
Qed.

Lemma find_passing (v : jsnum) (S : list ColorRule) (r : ColorRule) :
  r ∈ S → rule_passes v r = true → ∃ w, find (rule_passes v) S = Some w.
Proof.
  intros Hr Hp. destruct (find (rule_passes v) S) as [w|] eqn:Hf; [by eexists|].
  apply list_elem_of_In in Hr. pose proof (find_none _ _ Hf _ Hr). congruence.
Qed.

Lemma winner_least (v : jsnum) (R : list ColorRule) (r : ColorRule) :
  r ∈ R → rule_passes v r = true →
  ∃ w, w ∈ R ∧ rule_passes v w = true ∧
       (∀ r', r' ∈ R → rule_passes v r' = true → (cr_value w ≤ cr_value r')%Qc) ∧
       getPolygonColor (Some v) R = cr_color w.
Proof.
  intros Hr Hp.
  destruct (find_passing v (sortRules R) r) as [w Hw]; [by rewrite sortRules_perm|done|].
  exists w. pose proof (find_some _ _ Hw) as [Hin Hpw].
  apply list_elem_of_In in Hin. rewrite sortRules_perm in Hin.
  split_and!; [done..| |].
  - intros r' Hr' Hp'.
    apply (find_sorted_least v (sortRules R) w (sortRules_sorted R) Hw);
      [by rewrite sortRules_perm|done].
  - simpl. by rewrite for_sortedRules_find, Hw.
Qed.
End evaluator.

Import WeatherService DashboardStore Components Spec.

(** C1.  For a non-absent value the evaluator works on the rules sorted
    ascending by threshold, the sort being stable (a permutation of the rule
    set, ordered by threshold, rules of equal threshold in their original
    relative order), and returns the colour of the first rule of that order
    whose comparison holds for the value, the comparisons being the standard
    numeric ones.  For the rules <10→A, >=10→B, >=25→C and the value 30 the
    result is B. *)
Theorem getPolygonColor_first_ascending_match :
  ∀ (v : jsnum) (R : list ColorRule),
    sortRules R ≡ₚ R ∧
    StronglySorted threshold_le (sortRules R) ∧
    (∀ t, with_threshold t (sortRules R) = with_threshold t R) ∧
    (∀ before r after,
       sortRules R = before ++ r :: after →
       Forall (λ r', rule_passes v r' = false) before →
       rule_passes v r = true →
       getPolygonColor (Some v) R = cr_color r) ∧
    (∀ x r, rule_passes (Fin x) r = true ↔ satisfies x r) ∧
    getPolygonColor (Some (Fin (Qc_of_Z 30))) example_rules = "B".
Proof.
  intros v R. split_and!.
  - apply sortRules_perm.
  - apply sortRules_sorted.
  - intros t. apply sortRules_stable.
  - intros before r after HS Hbefore Hr. simpl.
    rewrite for_sortedRules_find, HS. clear HS.
    induction Hbefore as [|r' before Hr' _ IH]; simpl.
    + by rewrite Hr.
    + by rewrite Hr'.
  - apply rule_passes_satisfies.
  - by vm_compute.
Qed.

(** C4, counterexample.  Two rules with the same threshold, <=10→A and
    >=10→B, both match the value 10; the evaluator returns A for one order of
    the rule set and B for the other. *)
Lemma getPolygonColor_shuffle_counterexample :
  [rule OpLe 10 "A"; rule OpGe 10 "B"] ≡ₚ [rule OpGe 10 "B"; rule OpLe 10 "A"] ∧
  getPolygonColor (Some (Fin (Qc_of_Z 10))) [rule OpLe 10 "A"; rule OpGe 10 "B"] = "A" ∧
  getPolygonColor (Some (Fin (Qc_of_Z 10))) [rule OpGe 10 "B"; rule OpLe 10 "A"] = "B".
Proof. split_and!; [apply Permutation_swap|by vm_compute..]. Qed.

(** C4, amended.  The evaluator returns the same colour for a value and
    every reordering of the rule set, provided that any two rules of the set
    that have the same threshold and both match the value carry the same
    colour.  The condition is needed only for such pairs: rules with
    different thresholds, and rules with a common threshold of which at most
    one matches, may be colored at will; an absent value needs no
    condition. *)
Theorem getPolygonColor_permutation_agreeing_ties :
  ∀ (v : option jsnum) (R R' : list ColorRule),
    R ≡ₚ R' →
    (∀ x r r', v = Some x → r ∈ R → r' ∈ R → cr_value r = cr_value r' →
               rule_passes x r = true → rule_passes x r' = true →
               cr_color r = cr_color r') →
    getPolygonColor v R = getPolygonColor v R'.
Proof.
  intros [x|] R R' Hp Hties; [|done].
  destruct (find (rule_passes x) (sortRules R)) as [r|] eqn:Hf.
  - apply find_some in Hf as [Hr Hpr].
    apply list_elem_of_In in Hr. rewrite sortRules_perm in Hr.
    destruct (winner_least x R r Hr Hpr) as (w & Hw & Hpw & Hleast & ->).
    assert (r ∈ R') as Hr' by by rewrite <- Hp.
    destruct (winner_least x R' r Hr' Hpr) as (w' & Hw' & Hpw' & Hleast' & ->).
    rewrite <- Hp in Hw'.
    apply (Hties x); try done.
    apply Qcle_antisym; [by apply Hleast|].
    apply Hleast'; [by rewrite <- Hp|done].
  - pose proof (find_none _ _ Hf) as Hnone.
    assert (find (rule_passes x) (sortRules R') = None) as Hf'.
    { destruct (find (rule_passes x) (sortRules R')) as [r|] eqn:Hf'; [|done].
      apply find_some in Hf' as [Hr Hpr]. apply list_elem_of_In in Hr.
      rewrite sortRules_perm, <- Hp, <- (sortRules_perm R) in Hr.
      apply list_elem_of_In in Hr. specialize (Hnone r Hr). congruence. }
    simpl. by rewrite !for_sortedRules_find, Hf, Hf'.
Qed.

Lemma getPolygonColor_permutation_witness :
  getPolygonColor (Some (Fin (Qc_of_Z 10))) example_rules =
  getPolygonColor (Some (Fin (Qc_of_Z 10))) (reverse example_rules).
Proof.
  apply getPolygonColor_permutation_agreeing_ties.
  - apply Permutation_sym, reverse_Permutation.
  - intros x r r' [= <-] Hr Hr' Heq Hpass Hpass'.
    unfold example_rules in Hr, Hr'.
    repeat (apply elem_of_cons in Hr as [->|Hr]); [| | |by apply elem_of_nil in Hr];
      repeat (apply elem_of_cons in Hr' as [->|Hr']); try (by apply elem_of_nil in Hr');
      try done; try (by vm_compute in Hpass); try (by vm_compute in Hpass').
Defined.

(** C6, counterexample.  A rule may carry either fixed colour: with the
    single rule >=0→#94a3b8 the value -1 matches no rule and the default
    returned is that rule's colour; with the single rule >=0→#gray-400 the
    colour returned for an absent value is that rule's colour. *)
Lemma fixed_colors_clash_counterexample :
  (Forall (λ r, rule_passes (Fin (Qc_of_Z (-1))) r = false) [rule OpGe 0 "#94a3b8"] ∧
   getPolygonColor (Some (Fin (Qc_of_Z (-1)))) [rule OpGe 0 "#94a3b8"]
     ∈ cr_color <$> [rule OpGe 0 "#94a3b8"]) ∧
  getPolygonColor None [rule OpGe 0 "#gray-400"] ∈ cr_color <$> [rule OpGe 0 "#gray-400"].
Proof.
  split_and!.
  - repeat constructor.
  - vm_compute. apply list_elem_of_here.
  - vm_compute. apply list_elem_of_here.
Qed.

(** C6, amended.  For every rule set the colour of an absent value is the
    fixed "no data" colour and the colour of a value that no rule matches is
    the fixed default colour; the two fixed colours differ from each other,
    and each differs from every rule colour of a rule set that does not
    itself use it as a rule colour. *)
Theorem getPolygonColor_fixed_colors :
  ∀ (v : jsnum) (R : list ColorRule),
    getPolygonColor None R = NO_DATA_COLOR ∧
    (Forall (λ r, rule_passes v r = false) R →
     getPolygonColor (Some v) R = DEFAULT_COLOR) ∧
    NO_DATA_COLOR ≠ DEFAULT_COLOR ∧
    (NO_DATA_COLOR ∉ cr_color <$> R →
     getPolygonColor None R ∉ cr_color <$> R) ∧
    (DEFAULT_COLOR ∉ cr_color <$> R →
     Forall (λ r, rule_passes v r = false) R →
     getPolygonColor (Some v) R ∉ cr_color <$> R).
Proof.
  intros v R.
  assert (Hdef : Forall (λ r, rule_passes v r = false) R →
                 getPolygonColor (Some v) R = DEFAULT_COLOR).
  { intros Hno. simpl. apply for_sortedRules_none. by rewrite sortRules_perm. }
  split_and!; try done.
  intros Hfresh Hno. by rewrite Hdef.
Qed.

Lemma getPolygonColor_fixed_colors_witness :
  getPolygonColor (Some (Fin (Qc_of_Z 7))) [rule OpGe 10 "B"] = DEFAULT_COLOR ∧
  getPolygonColor (Some (Fin (Qc_of_Z 7))) [rule OpGe 10 "B"] ∉ cr_color <$> [rule OpGe 10 "B"].
Proof.
  pose proof (getPolygonColor_fixed_colors (Fin (Qc_of_Z 7)) [rule OpGe 10 "B"])
    as (_ & Hdef & _ & _ & Hfresh).
  split.
  - apply Hdef. by repeat constructor.
  - apply Hfresh; [|by repeat constructor].
    vm_compute. by intros [=]%list_elem_of_singleton.
Defined.

(** ** Geometry helpers *)

Section geometry.

Lemma Qc_of_nat_nonzero (n : nat) : n ≠ 0%nat → Qc_of_nat n ≠ 0%Qc.
Proof.
  intros Hn H. unfold Qc_of_nat in H.
  rewrite <- Z2Qc_inj_0 in H. apply Z2Qc_inj in H. lia.
Qed.

Lemma js_div_length (a : Qc) (n : nat) :
  n ≠ 0%nat → js_div a (Qc_of_nat n) = Fin (a / Qc_of_nat n)%Qc.
Proof.
  intros Hn. unfold js_div. rewrite bool_decide_eq_false_2; [done|].
  by apply Qc_of_nat_nonzero.
Qed.

Lemma reduce_sum {A} (f : A → Qc) (acc : Qc) (l : list A) :
  foldl (λ sum a, (sum + f a)%Qc) acc l = (acc + total (f <$> l))%Qc.
Proof.
  revert acc. induction l as [|a l IH]; intros acc.
  - change (acc = (acc + 0)%Qc). by rewrite Qcplus_0_r.
  - change (foldl (λ sum a, (sum + f a)%Qc) (acc + f a)%Qc l =
            (acc + (f a + total (f <$> l)))%Qc).
    by rewrite IH, Qcplus_assoc.
Qed.

Lemma Math_min_from (a : Qc) (xs : list Qc) :
  ∃ m, foldl (λ lowest x, if js_lt (Fin x) lowest then Fin x else lowest) (Fin a) xs = Fin m
       ∧ is_least m (a :: xs).
Proof.
  revert a. induction xs as [|x xs IH]; intros a; cbn [foldl].
  - exists a. split; [done|]. split; [apply list_elem_of_here|].
    intros y ->%list_elem_of_singleton. apply Qcle_refl.
  - destruct (js_lt (Fin x) (Fin a)) eqn:Hlt; simpl in Hlt.
    + apply bool_decide_eq_true in Hlt.
      destruct (IH x) as (m & -> & Hin & Hle). exists m. split; [done|].
      split; [by apply list_elem_of_further|].
      intros y [->|Hy]%elem_of_cons; [|by apply Hle].
      eapply Qcle_trans; [apply Hle, list_elem_of_here|by apply Qclt_le_weak].
    + apply bool_decide_eq_false, Qcnot_lt_le in Hlt.
      destruct (IH a) as (m & -> & Hin & Hle). exists m. split; [done|].
      split.
      * apply elem_of_cons in Hin as [->|Hin]; [apply list_elem_of_here|].
        by do 2 apply list_elem_of_further.
      * intros y [->|[->|Hy]%elem_of_cons]%elem_of_cons.
        -- apply Hle, list_elem_of_here.
        -- eapply Qcle_trans; [apply Hle, list_elem_of_here|done].
        -- by apply Hle, list_elem_of_further.
Qed.

Lemma Math_max_from (a : Qc) (xs : list Qc) :
  ∃ m, foldl (λ highest x, if js_lt highest (Fin x) then Fin x else highest) (Fin a) xs = Fin m
       ∧ is_greatest m (a :: xs).
Proof.
  revert a. induction xs as [|x xs IH]; intros a; cbn [foldl].
  - exists a. split; [done|]. split; [apply list_elem_of_here|].
    intros y ->%list_elem_of_singleton. apply Qcle_refl.
  - destruct (js_lt (Fin a) (Fin x)) eqn:Hlt; simpl in Hlt.
    + apply bool_decide_eq_true in Hlt.
      destruct (IH x) as (m & -> & Hin & Hle). exists m. split; [done|].
      split; [by apply list_elem_of_further|].
      intros y [->|Hy]%elem_of_cons; [|by apply Hle].
      eapply Qcle_trans; [by apply Qclt_le_weak|apply Hle, list_elem_of_here].
    + apply bool_decide_eq_false, Qcnot_lt_le in Hlt.
      destruct (IH a) as (m & -> & Hin & Hle). exists m. split; [done|].
      split.
      * apply elem_of_cons in Hin as [->|Hin]; [apply list_elem_of_here|].
        by do 2 apply list_elem_of_further.
      * intros y [->|[->|Hy]%elem_of_cons]%elem_of_cons.
        -- apply Hle, list_elem_of_here.
        -- eapply Qcle_trans; [done|apply Hle, list_elem_of_here].
        -- by apply Hle, list_elem_of_further.
Qed.

Lemma Math_min_least (xs : list Qc) :
  xs ≠ [] → ∃ m, Math_min xs = Fin m ∧ is_least m xs.
Proof. destruct xs as [|a xs]; [done|intros _]. apply Math_min_from. Qed.

Lemma Math_max_greatest (xs : list Qc) :
  xs ≠ [] → ∃ m, Math_max xs = Fin m ∧ is_greatest m xs.
Proof. destruct xs as [|a xs]; [done|intros _]. apply Math_max_from. Qed.

Lemma is_least_unique (m m' : Qc) (xs : list Qc) :
  is_least m xs → is_least m' xs → m = m'.
Proof. intros [Hin Hle] [Hin' Hle']. apply Qcle_antisym; auto. Qed.

Lemma is_greatest_unique (m m' : Qc) (xs : list Qc) :
  is_greatest m xs → is_greatest m' xs → m = m'.
Proof. intros [Hin Hle] [Hin' Hle']. apply Qcle_antisym; auto. Qed.

Lemma calculateCentroid_mean (points : list (Qc * Qc)) :
  points ≠ [] →
  calculateCentroid points = (Fin (mean (fst <$> points)), Fin (mean (snd <$> points))).
Proof.
  intros Hne. unfold calculateCentroid, mean.
  assert (length points ≠ 0%nat) by by destruct points.
  rewrite !js_div_length, !reduce_sum, !length_fmap by done.
  by rewrite !Qcplus_0_l.
Qed.
End geometry.



(** ** The response adapter *)

Lemma truthy_false_iff (e : jsval) :
  truthy e = false ↔
  e = JUndefined ∨ e = JNull ∨ e = JNum NaN ∨ e = JNum (Fin 0%Qc).
Proof.
  destruct e as [| |[q| | |]]; simpl.
  - split; auto.
  - split; auto.
  - rewrite bool_decide_eq_false. split.
    + intros Hq. do 3 right. destruct (decide (q = 0%Qc)) as [->|]; [done|].
      by destruct Hq.
    + intros [|[|[|[= ->]]]]; try done. by intros [].
  - split; [done|]. by intros [|[|[|]]].
  - split; [done|]. by intros [|[|[|]]].
  - split; auto.
Qed.

Lemma array_map_from_total {A B} (g : A → nat → B) (i : nat) (arr : list A) :
  array_map_from (λ x index, Normal (g x index)) i arr =
    Normal (imap (λ j x, g x (i + j)%nat) arr).
Proof.
  revert i. induction arr as [|x arr IH]; intros i; simpl; [done|].
  rewrite IH. simpl. rewrite Nat.add_0_r. do 2 f_equal.
  apply imap_ext. intros j y _. simpl. f_equal. lia.
Qed.

Lemma transformWeatherData_present (polygonId : string) (ts : list string)
    (vs : list jsval) :
  transformWeatherData polygonId {| timeArray := Some ts; valueArray := Some vs |} =
    Normal (imap (λ index timestamp,
                    {| wd_polygonId := polygonId; wd_timestamp := timestamp;
                       wd_value := js_or (array_get vs index) (JNum (Fin 0%Qc)) |}) ts).
Proof.
  unfold transformWeatherData, array_map. simpl.
  exact (array_map_from_total
           (λ timestamp index,
              {| wd_polygonId := polygonId; wd_timestamp := timestamp;
                 wd_value := js_or (array_get vs index) (JNum (Fin 0%Qc)) |}) 0 ts).
Qed.

(** C10, counterexample.  A response whose [hourly] object has a time array
    but no array for the requested field: the adapter throws a TypeError
    instead of producing a point with value 0. *)
Lemma transformWeatherData_missing_field_counterexample :
  transformWeatherData "polygon_1"
    {| timeArray := Some ["2024-01-01T00:00"]; valueArray := None |} = Throw TypeError.
Proof. reflexivity. Qed.

(** C10, amended.  For a response whose [hourly] object holds the time array
    and the array of the requested field, the adapter returns one point per
    entry of the time array, in the same order, each carrying the polygon
    id, the timestamp at that position and a value that is always a number
    other than NaN: the value array's entry at the same position when that
    entry is a number other than NaN (so a reading stays what it is), and 0
    when the entry is missing (past the end of the value array, or
    undefined), null, NaN or 0.  When the time array is missing, or the
    field's array is missing and the time array is not empty, the adapter
    throws a TypeError; with an empty time array it returns no point. *)
Theorem transformWeatherData_zip_or_zero :
  ∀ (polygonId : string) (ts : list string) (vs : list jsval),
    (∃ out,
       transformWeatherData polygonId {| timeArray := Some ts; valueArray := Some vs |} =
         Normal out ∧
       length out = length ts ∧
       ∀ index timestamp,
         ts !! index = Some timestamp →
         ∃ n,
           out !! index =
             Some {| wd_polygonId := polygonId; wd_timestamp := timestamp;
                     wd_value := JNum n |} ∧
           n ≠ NaN ∧
           (∀ m, vs !! index = Some (JNum m) → m ≠ NaN → n = m) ∧
           (vs !! index = None ∨ vs !! index = Some JUndefined ∨
            vs !! index = Some JNull ∨ vs !! index = Some (JNum NaN) ∨
            vs !! index = Some (JNum (Fin 0%Qc)) → n = Fin 0%Qc)) ∧
    transformWeatherData polygonId {| timeArray := None; valueArray := Some vs |} =
      Throw TypeError ∧
    transformWeatherData polygonId {| timeArray := Some ts; valueArray := None |} =
      (if bool_decide (ts = []) then Normal [] else Throw TypeError).
Proof.
  intros polygonId ts vs. split_and!.
  - eexists. split; [apply transformWeatherData_present|].
    split; [apply length_imap|].
    intros index timestamp Ht. rewrite list_lookup_imap, Ht. simpl.
    unfold js_or, array_get.
    destruct (vs !! index) as [[| |[q| | |]]|] eqn:Hv; simpl.
    + exists (Fin 0%Qc). split_and!; try done.
    + exists (Fin 0%Qc). split_and!; try done.
    + case_bool_decide as Hq.
      * exists (Fin q). split_and!; try done; [by intros m [= <-]|].
        intros [|[|[|[|[= ->]]]]]; done.
      * exists (Fin 0%Qc). split_and!; try done.
        intros m [= <-] _. by rewrite Hq.
    + exists PosInf. split_and!; try done; [by intros m [= <-]|].
      intros [|[|[|[|]]]]; done.
    + exists NegInf. split_and!; try done; [by intros m [= <-]|].
      intros [|[|[|[|]]]]; done.
    + exists (Fin 0%Qc). split_and!; try done. by intros m [= <-].
    + exists (Fin 0%Qc). split_and!; try done.
  - done.
  - destruct ts as [|t ts]; done.
Qed.

Lemma transformWeatherData_witness :
  ∃ out,
    transformWeatherData "polygon_1"
      {| timeArray := Some ["2024-01-01T00:00"; "2024-01-01T01:00"; "2024-01-01T02:00"];
         valueArray := Some [JNum (Fin (Qc_of_Z 3)); JNull] |} = Normal out ∧
    out !! 0%nat =
      Some {| wd_polygonId := "polygon_1"; wd_timestamp := "2024-01-01T00:00";
              wd_value := JNum (Fin (Qc_of_Z 3)) |} ∧
    out !! 1%nat =
      Some {| wd_polygonId := "polygon_1"; wd_timestamp := "2024-01-01T01:00";
              wd_value := JNum (Fin 0%Qc) |} ∧
    out !! 2%nat =
      Some {| wd_polygonId := "polygon_1"; wd_timestamp := "2024-01-01T02:00";
              wd_value := JNum (Fin 0%Qc) |}.
Proof.
  destruct (transformWeatherData_zip_or_zero "polygon_1"
      ["2024-01-01T00:00"; "2024-01-01T01:00"; "2024-01-01T02:00"]
      [JNum (Fin (Qc_of_Z 3)); JNull]) as ((out & Hout & _ & Hpt) & _ & _).
  exists out. split; [exact Hout|].
  destruct (Hpt 0%nat "2024-01-01T00:00" eq_refl) as (n0 & H0 & _ & Hn0 & _).
  destruct (Hpt 1%nat "2024-01-01T01:00" eq_refl) as (n1 & H1 & _ & _ & Hn1).
  destruct (Hpt 2%nat "2024-01-01T02:00" eq_refl) as (n2 & H2 & _ & _ & Hn2).
  rewrite (Hn0 (Fin (Qc_of_Z 3)) eq_refl) in H0 by done.
  rewrite Hn1 in H1 by (right; right; by left).
  rewrite Hn2 in H2 by by left.
  by split_and!.
Defined.

(** ** The polygon store *)

(** C8, counterexample.  A state holds the polygon ["polygon_1"] and a cached
    series for it; after [removePolygon "polygon_1"] the polygon is gone but
    the cache still holds the series under that id. *)
Lemma removePolygon_cache_counterexample :
  polygon_1 ∈ polygons (state_with (single_at (Some t_2024_01_16_10h) 360)
                          [reading "2024-01-16T00:00" 5]) ∧
  polygons (removePolygon "polygon_1"
              (state_with (single_at (Some t_2024_01_16_10h) 360)
                 [reading "2024-01-16T00:00" 5])) = [] ∧
  weatherData (removePolygon "polygon_1"
                 (state_with (single_at (Some t_2024_01_16_10h) 360)
                    [reading "2024-01-16T00:00" 5])) !! "polygon_1" =
    Some [reading "2024-01-16T00:00" 5].
Proof.
  split_and!.
  - apply list_elem_of_here.
  - done.
  - apply lookup_singleton_eq.
Qed.

(** C8, amended.  After [removePolygon id] the polygon list holds exactly the
    former polygons whose id is not [id], in their former order, the selection
    is cleared when it was [id], and the weather-data cache is unchanged: an
    entry keyed by [id] stays in it. *)
Theorem removePolygon_keeps_cache :
  ∀ (id : string) (st : DashboardState),
    Forall (λ p, pg_id p ≠ id) (polygons (removePolygon id st)) ∧
    polygons (removePolygon id st) = filter (λ p, pg_id p ≠ id) (polygons st) ∧
    (∀ p, p ∈ polygons (removePolygon id st) ↔ p ∈ polygons st ∧ pg_id p ≠ id) ∧
    selectedPolygonId (removePolygon id st) ≠ Some id ∧
    weatherData (removePolygon id st) = weatherData st.
Proof.
  intros id st. split_and!.
  - apply Forall_forall. by intros p [? _]%list_elem_of_filter.
  - done.
  - intros p. simpl. rewrite list_elem_of_filter. tauto.
  - simpl. by case_bool_decide.
  - done.
Qed.

(** ** The value resolver: range mode *)

Section range_mode.

Lemma array_filter_from_slice {A} (s e : Z) (i : nat) (data : list A) :
  array_filter_from
    (λ _ index, bool_decide (s ≤ Z.of_nat index) && bool_decide (Z.of_nat index ≤ e))
    i data =
  take (Z.to_nat (e + 1 - Z.max (Z.of_nat i) s)) (drop (Z.to_nat (s - Z.of_nat i)) data).
Proof.
  revert i. induction data as [|d rest IH]; intros i.
  - by rewrite drop_nil, take_nil.
  - cbn [array_filter_from]. rewrite IH.
    destruct (decide (s ≤ Z.of_nat i)) as [Hs|Hs];
      [destruct (decide (Z.of_nat i ≤ e)) as [He|He]|].
    + rewrite !bool_decide_eq_true_2 by done. cbn [andb].
      replace (Z.to_nat (s - Z.of_nat i)) with 0%nat by lia.
      replace (Z.to_nat (s - Z.of_nat (S i))) with 0%nat by lia.
      replace (Z.to_nat (e + 1 - Z.max (Z.of_nat i) s))
        with (S (Z.to_nat (e + 1 - Z.max (Z.of_nat (S i)) s))) by lia.
      done.
    + rewrite (bool_decide_eq_false_2 (Z.of_nat i ≤ e)) by done.
      rewrite andb_false_r.
      replace (Z.to_nat (e + 1 - Z.max (Z.of_nat (S i)) s)) with 0%nat by lia.
      replace (Z.to_nat (e + 1 - Z.max (Z.of_nat i) s)) with 0%nat by lia.
      done.
    + rewrite (bool_decide_eq_false_2 (s ≤ Z.of_nat i)) by done. cbn [andb].
      replace (Z.to_nat (s - Z.of_nat i))
        with (S (Z.to_nat (s - Z.of_nat (S i)))) by lia.
      replace (Z.max (Z.of_nat (S i)) s) with (Z.max (Z.of_nat i) s) by lia.
      done.
Qed.

Lemma array_filter_slice {A} (s e : Z) (data : list A) :
  array_filter
    (λ _ index, bool_decide (s ≤ Z.of_nat index) && bool_decide (Z.of_nat index ≤ e))
    data = slice s e data.
Proof.
  unfold array_filter, slice. rewrite array_filter_from_slice.
  by replace (s - Z.of_nat 0) with s by lia.
Qed.

Lemma slice_lookup {A} (s e : Z) (data : list A) (i : nat) (x : A) :
  slice s e data !! i = Some x ↔
  data !! (Z.to_nat s + i)%nat = Some x ∧ Z.max 0 s + Z.of_nat i ≤ e.
Proof.
  unfold slice. rewrite lookup_take_Some, lookup_drop.
  split; intros [? ?]; (split; [done|lia]).
Qed.

Lemma getPolygonCurrentValue_range (tz : Z) (st : DashboardState) (id : string)
    (data : list WeatherData) (s e : Z) :
  weatherData st !! id = Some data → data ≠ [] →
  mode (timeline st) = range → selectedRange (timeline st) = (s, e) →
  getPolygonCurrentValue tz st id =
    Normal match slice s e data with
           | [] => None
           | _ :: _ => Some (Fin (mean (wd_value <$> slice s e data)))
           end.
Proof.
  intros Hdata Hne Hmode Hrange. unfold getPolygonCurrentValue.
  rewrite Hdata, Hmode, Hrange, array_filter_slice.
  rewrite bool_decide_eq_false_2 by by destruct data.
  destruct (slice s e data) as [|d l] eqn:Hslice; [done|].
  rewrite bool_decide_eq_false_2 by done.
  rewrite js_div_length, reduce_sum, Qcplus_0_l by done.
  unfold mean. by rewrite length_fmap.
Qed.
End range_mode.



(** ** Dates *)

Section date_facts.

Lemma month_of_yday_range (leap : bool) (d : Z) : 0 ≤ month_of_yday leap d ≤ 11.
Proof. unfold month_of_yday. repeat case_bool_decide; lia. Qed.

(** Moving the day of the month by [k] moves the day number by [k]. *)
Lemma MakeDay_shift (t k : Z) :
  MakeDay (YearFromTime t) (MonthFromTime t) (DateFromTime t + k) = Day t + k.
Proof.
  unfold MakeDay, DateFromTime, DayWithinYear, InLeapYear.
  pose proof (month_of_yday_range (InLeapYear t) (DayWithinYear t)) as Hm.
  fold (MonthFromTime t) in Hm.
  rewrite (Z.div_small (MonthFromTime t) 12), (Z.mod_small (MonthFromTime t) 12) by lia.
  rewrite Z.add_0_r. lia.
Qed.

Lemma time_in_hour (t : Z) :
  MinFromTime t * msPerMinute + SecFromTime t * msPerSecond + msFromTime t =
  t `mod` msPerHour.
Proof.
  unfold MinFromTime, SecFromTime, msFromTime, msPerMinute, msPerSecond, msPerHour.
  Z.div_mod_to_equations. lia.
Qed.

Lemma setDate_shift (tz t k : Z) :
  setDate tz (Some t) ((λ d, d + k) <$> getDate tz (Some t)) = TimeClip (t + k * msPerDay).
Proof.
  unfold setDate, getDate. simpl. rewrite MakeDay_shift.
  f_equal. unfold MakeDate, UTC, LocalTime, Day, TimeWithinDay, msPerDay.
  Z.div_mod_to_equations. lia.
Qed.

Lemma setHours_value (tz t h : Z) :
  setHours tz (Some t) (Some h) =
    TimeClip (t - (t + tz) `mod` msPerDay + h * msPerHour + (t + tz) `mod` msPerHour).
Proof.
  unfold setHours. simpl. f_equal.
  unfold MakeDate, MakeTime. rewrite <- Z.add_assoc, <- Z.add_assoc.
  rewrite (Z.add_assoc (MinFromTime _ * _)), time_in_hour.
  unfold UTC, LocalTime, Day, msPerDay, msPerHour.
  Z.div_mod_to_equations. lia.
Qed.

Lemma TimeClip_in_range (t : Z) : Z.abs t ≤ maxTime → TimeClip t = Some t.
Proof. intros H. unfold TimeClip. by rewrite bool_decide_eq_true_2. Qed.

(** Within sixteen days of the ends of the time range, and for an hour
    offset of the 720-hour window, the target date is a valid date. *)
Lemma targetDate_of_valid (tz t h : Z) :
  Z.abs t ≤ maxTime - 16 * msPerDay → 0 ≤ h ≤ 719 →
  ∃ t', targetDate_of tz (Some t) h = Some t'.
Proof.
  intros Ht Hh. unfold targetDate_of.
  change (λ d, d - 15) with (λ d, d + -15).
  rewrite setDate_shift, TimeClip_in_range by (unfold maxTime, msPerDay in *; lia).
  rewrite setHours_value.
  assert (0 ≤ h `rem` 24 ≤ 23) as Hrem by (pose proof (Z.rem_bound_pos h 24); lia).
  assert (0 ≤ h `div` 24 ≤ 29) as Hdiv by (Z.div_mod_to_equations; lia).
  set (t1 := t + -15 * msPerDay) in *.
  set (t2 := t1 - (t1 + tz) `mod` msPerDay + h `rem` 24 * msPerHour + (t1 + tz) `mod` msPerHour).
  assert (t1 - msPerDay ≤ t2 ≤ t1 + msPerDay) as Ht2.
  { subst t2. pose proof (Z.mod_pos_bound (t1 + tz) msPerDay eq_refl).
    pose proof (Z.mod_pos_bound (t1 + tz) msPerHour eq_refl).
    unfold msPerDay, msPerHour in *. lia. }
  rewrite (TimeClip_in_range t2) by (subst t1; unfold maxTime, msPerDay in *; lia).
  rewrite setDate_shift.
  rewrite TimeClip_in_range by (subst t1; unfold maxTime, msPerDay in *; nia).
  by eexists.
Qed.

Lemma targetTimestamp_of_valid (tz t : Z) :
  ∃ s, targetTimestamp_of tz (Some t) = Normal s.
Proof. unfold targetTimestamp_of. simpl. by eexists. Qed.

Lemma getPolygonCurrentValue_absent (tz : Z) (st : DashboardState) (id : string) :
  weatherData st !! id = None ∨ weatherData st !! id = Some [] →
  getPolygonCurrentValue tz st id = Normal None.
Proof. unfold getPolygonCurrentValue. by intros [-> | ->]. Qed.

Lemma getPolygonCurrentValue_range_total (tz : Z) (st : DashboardState) (id : string) :
  mode (timeline st) = range → ∃ r, getPolygonCurrentValue tz st id = Normal r.
Proof.
  intros Hmode. unfold getPolygonCurrentValue. rewrite Hmode.
  destruct (weatherData st !! id) as [data|]; [|by eexists].
  case_bool_decide; [by eexists|].
  destruct (selectedRange (timeline st)) as [s e].
  case_bool_decide; by eexists.
Qed.

Lemma getPolygonCurrentValue_single_total (tz : Z) (st : DashboardState) (id : string) (t : Z) :
  baseDate (timeline st) = Some t →
  Z.abs t ≤ maxTime - 16 * msPerDay →
  0 ≤ selectedHour (timeline st) ≤ 719 →
  ∃ r, getPolygonCurrentValue tz st id = Normal r.
Proof.
  intros Hbase Ht Hh.
  destruct (mode (timeline st)) eqn:Hmode; [|by apply getPolygonCurrentValue_range_total].
  unfold getPolygonCurrentValue. rewrite Hmode, Hbase.
  destruct (weatherData st !! id) as [data|]; [|by eexists].
  case_bool_decide; [by eexists|].
  destruct (targetDate_of_valid tz t _ Ht Hh) as [t' ->].
  destruct (targetTimestamp_of_valid tz t') as [s ->].
  by eexists.
Qed.

Lemma getPolygonColor_range (v : option jsnum) (R : list ColorRule) :
  getPolygonColor v R = NO_DATA_COLOR ∨
  getPolygonColor v R = DEFAULT_COLOR ∨
  getPolygonColor v R ∈ cr_color <$> R.
Proof.
  destruct v as [v|]; [right|by left]. simpl.
  destruct (for_sortedRules_in v (sortRules R)) as [?|Hin]; [by left|right].
  apply list_elem_of_fmap in Hin as (r & -> & Hr).
  apply list_elem_of_fmap_2. by rewrite <- (sortRules_perm R).
Qed.
End date_facts.

(** ** The value resolver: totality *)

(** C5, counterexample.  In single mode, on a non-empty series, the resolver
    throws a RangeError when the target date is invalid: for an invalid base
    date, and for the last representable date as base date with the offset
    719. *)
Lemma getPolygonCurrentValue_throws_counterexample :
  getPolygonCurrentValue 0
    (state_with (single_at None 360) [reading "2024-01-16T00:00" 5]) "polygon_1" =
    Throw RangeError ∧
  getPolygonCurrentValue 0
    (state_with (single_at (Some maxTime) 719) [reading "2024-01-16T00:00" 5]) "polygon_1" =
    Throw RangeError.
Proof. split; by vm_compute. Qed.

(** C5, amended.  On a missing or empty series the resolver returns absent in
    both modes, whatever the timeline.  In range mode it always returns.  In
    single mode it returns whenever the base date is a valid date at least
    sixteen days inside the representable range and the offset lies in the
    720-hour window; the only exception it can raise is the RangeError of an
    invalid target date.  The rule evaluator always returns the "no data"
    colour, the default colour or the colour of one of the rules. *)
Theorem resolver_and_evaluator_total :
  ∀ (tz : Z) (st : DashboardState) (id : string),
    (weatherData st !! id = None ∨ weatherData st !! id = Some [] →
     getPolygonCurrentValue tz st id = Normal None) ∧
    (mode (timeline st) = range → ∃ r, getPolygonCurrentValue tz st id = Normal r) ∧
    (∀ t, baseDate (timeline st) = Some t →
          Z.abs t ≤ maxTime - 16 * msPerDay →
          0 ≤ selectedHour (timeline st) ≤ 719 →
          ∃ r, getPolygonCurrentValue tz st id = Normal r) ∧
    (∀ e, getPolygonCurrentValue tz st id = Throw e →
          e = RangeError ∧ mode (timeline st) = single ∧
          targetDate_of tz (baseDate (timeline st)) (selectedHour (timeline st)) = None) ∧
    (∀ v R, getPolygonColor v R = NO_DATA_COLOR ∨
            getPolygonColor v R = DEFAULT_COLOR ∨
            getPolygonColor v R ∈ cr_color <$> R).
Proof.
  intros tz st id. split_and!.
  - apply getPolygonCurrentValue_absent.
  - apply getPolygonCurrentValue_range_total.
  - apply getPolygonCurrentValue_single_total.
  - intros e. destruct (mode (timeline st)) eqn:Hmode.
    + unfold getPolygonCurrentValue. rewrite Hmode.
      destruct (weatherData st !! id) as [data|]; [|done].
      case_bool_decide; [done|].
      destruct (targetDate_of tz _ _) as [t'|]; [|by intros [= <-]].
      by destruct (targetTimestamp_of_valid tz t') as [s ->].
    + by destruct (getPolygonCurrentValue_range_total tz st id Hmode) as [r ->].
  - apply getPolygonColor_range.
Qed.

Lemma resolver_and_evaluator_total_witness :
  (∃ r, getPolygonCurrentValue 0
          (state_with (single_at (Some t_2024_01_16_10h) 360) [reading "2024-01-16T00:00" 5])
          "polygon_1" = Normal r) ∧
  getPolygonCurrentValue 0
    (state_with (single_at (Some t_2024_01_16_10h) 360) []) "polygon_1" = Normal None.
Proof.
  split.
  - apply (resolver_and_evaluator_total 0 _ "polygon_1") with (t := t_2024_01_16_10h).
    + done.
    + by vm_compute.
    + done.
  - apply (resolver_and_evaluator_total 0 _ "polygon_1").
    right. apply lookup_singleton_eq.
Defined.

(** ** The value resolver: single mode *)

(** C2, the divergence.  In UTC, for the base date 2024-01-16T10:00Z and the
    offset 0, the instant fifteen days before the base date is
    2024-01-01T10:00Z, which is also the date the slider shows for that
    offset; the resolver overwrites the hour of day, looks for the prefix
    2024-01-01T00:00, and answers absent on a series whose only entry is at
    2024-01-01T10:00, and 7 on a series whose only entry is at
    2024-01-01T00:00.  Outside UTC the prefix joins the UTC date with the
    local hour: five and a half hours east it is 2023-12-31T00:00. *)
Theorem single_mode_target_hour_mismatch :
  getDateFromHour 0 (state_with (single_at (Some t_2024_01_16_10h) 0) []) 0 =
    Some (t_2024_01_16_10h - 15 * msPerDay + 0 * msPerHour) ∧
  toISOString (Some (t_2024_01_16_10h - 15 * msPerDay + 0 * msPerHour)) =
    Normal "2024-01-01T10:00:00.000Z" ∧
  targetTimestamp_of 0 (targetDate_of 0 (Some t_2024_01_16_10h) 0) =
    Normal "2024-01-01T00:00" ∧
  getPolygonCurrentValue 0
    (state_with (single_at (Some t_2024_01_16_10h) 0) [reading "2024-01-01T10:00" 5])
    "polygon_1" = Normal None ∧
  getPolygonCurrentValue 0
    (state_with (single_at (Some t_2024_01_16_10h) 0) [reading "2024-01-01T00:00" 7])
    "polygon_1" = Normal (Some (Fin (Qc_of_Z 7))) ∧
  targetTimestamp_of 19800000 (targetDate_of 19800000 (Some t_2024_01_16_10h) 0) =
    Normal "2023-12-31T00:00".
Proof. split_and!; by vm_compute. Qed.

(** What the single-mode branch computes in general: the hour of day of the
    base date is dropped, so the target date is the start of the local day
    of the base date, fifteen days back and [h] hours on (plus the minutes
    within the hour, which the timestamp prefix ignores), whereas the date
    the slider shows keeps the hour of day. *)
Lemma targetDate_of_value (tz t h : Z) :
  Z.abs t ≤ maxTime - 16 * msPerDay → 0 ≤ h ≤ 719 →
  targetDate_of tz (Some t) h =
    Some (t - 15 * msPerDay + h * msPerHour
          - HourFromTime (LocalTime tz t) * msPerHour).
Proof.
  intros Ht Hh. unfold targetDate_of.
  change (λ d, d - 15) with (λ d, d + -15).
  rewrite setDate_shift, TimeClip_in_range by (unfold maxTime, msPerDay in *; lia).
  rewrite setHours_value.
  assert (0 ≤ h `rem` 24 ≤ 23) as Hrem by (pose proof (Z.rem_bound_pos h 24); lia).
  assert (0 ≤ h `div` 24 ≤ 29) as Hdiv by (Z.div_mod_to_equations; lia).
  assert (h = 24 * (h `div` 24) + h `rem` 24) as Hsplit.
  { rewrite Z.rem_mod_nonneg by lia. apply Z.div_mod. lia. }
  set (t1 := t + -15 * msPerDay) in *.
  set (t2 := t1 - (t1 + tz) `mod` msPerDay + h `rem` 24 * msPerHour + (t1 + tz) `mod` msPerHour).
  assert (t1 - msPerDay ≤ t2 ≤ t1 + msPerDay) as Ht2.
  { subst t2. pose proof (Z.mod_pos_bound (t1 + tz) msPerDay eq_refl).
    pose proof (Z.mod_pos_bound (t1 + tz) msPerHour eq_refl).
    unfold msPerDay, msPerHour in *. lia. }
  rewrite (TimeClip_in_range t2) by (subst t1; unfold maxTime, msPerDay in *; lia).
  rewrite setDate_shift.
  rewrite TimeClip_in_range by (subst t1; unfold maxTime, msPerDay in *; nia).
  f_equal. subst t2 t1.
  unfold HourFromTime, LocalTime, msPerDay, msPerHour in *.
  Z.div_mod_to_equations. lia.
Qed.

Lemma getDateFromHour_value (tz : Z) (st : DashboardState) (t h : Z) :
  baseDate (timeline st) = Some t →
  Z.abs t ≤ maxTime - 16 * msPerDay → 0 ≤ h ≤ 719 →
  getDateFromHour tz st h = Some (t - 15 * msPerDay + h * msPerHour).
Proof.
  intros Hbase Ht Hh. unfold getDateFromHour, addDays, addHours.
  rewrite Hbase, bool_decide_eq_false_2 by done.
  rewrite setDate_shift, TimeClip_in_range by (unfold maxTime, msPerDay in *; lia).
  simpl. rewrite TimeClip_in_range by (unfold maxTime, msPerDay, msPerHour in *; lia).
  f_equal; lia.
Qed.

(** ** The date window *)

Section date_window.

Lemma minDate_value : MakeDate (MakeDay 1940 0 1) 0 = -946771200000.
Proof. by vm_compute. Qed.

(** The predicate holds exactly for the valid dates from 1940-01-01T00:00Z
    to five days before [now]. *)
Lemma isValidDateForAPI_window (now : Z) (date : option Z) :
  Z.abs (now - 432000000) ≤ maxTime →
  isValidDateForAPI now date = true ↔
  ∃ t, date = Some t ∧ -946771200000 ≤ t ≤ now - 432000000.
Proof.
  intros Hnow. unfold isValidDateForAPI.
  rewrite minDate_value.
  change (5 * 24 * 60 * 60 * 1000) with 432000000.
  rewrite (TimeClip_in_range (now - 432000000)) by done.
  rewrite (TimeClip_in_range (-946771200000)) by by vm_compute.
  destruct date as [t|]; simpl.
  - rewrite andb_true_iff, !bool_decide_eq_true. split.
    + intros [? ?]. by exists t.
    + by intros (? & [= <-] & ? & ?).
  - split; [done|]. by intros (? & [=] & _).
Qed.

(** The dashboard effect sends nothing unless both ends of the date range
    pass the predicate. *)
Lemma fetchWeatherDataForAllPolygons_guarded (tz now : Z) (st : DashboardState) :
  fetchWeatherDataForAllPolygons tz now st ≠ [] →
  isValidDateForAPI now (getDateRange tz (baseDate (timeline st))).1 = true ∧
  isValidDateForAPI now (getDateRange tz (baseDate (timeline st))).2 = true.
Proof.
  unfold fetchWeatherDataForAllPolygons.
  case_bool_decide; [done|].
  destruct (getDateRange tz (baseDate (timeline st))) as [startDate endDate]. simpl.
  destruct (isValidDateForAPI now startDate), (isValidDateForAPI now endDate); done.
Qed.
End date_window.

(** C7, the divergence.  With the clock at 2024-06-15T12:00Z and the store's
    initial base date (the same instant), the date range ends on 2024-06-30,
    later than five days before now, so the predicate rejects it.  The
    dashboard effect then sends nothing, but [fetchWeatherDataForPolygon],
    which [createPolygon] runs for a newly drawn polygon, never consults the
    predicate and sends the request for 2024-05-31 to 2024-06-30. *)
Theorem fetchWeatherDataForPolygon_unguarded :
  getDateRange 0 (baseDate (timeline (initialState t_2024_06_15_12h))) =
    (Some (t_2024_06_15_12h - 15 * msPerDay), Some (t_2024_06_15_12h + 15 * msPerDay)) ∧
  isValidDateForAPI t_2024_06_15_12h (Some (t_2024_06_15_12h + 15 * msPerDay)) = false ∧
  fetchWeatherDataForAllPolygons 0 t_2024_06_15_12h
    (state_with (timeline (initialState t_2024_06_15_12h)) []) = [] ∧
  (λ r, (start_date r, end_date r, hourly r, timezone r)) <$>
    fetchWeatherDataForPolygon 0
      (state_with (timeline (initialState t_2024_06_15_12h)) [])
      "polygon_1" (pg_centroid polygon_1) "temperature" =
    [("2024-05-31", "2024-06-30", "temperature_2m", "UTC")].
Proof. split_and!; by vm_compute. Qed.

(** ** Further properties of the rule evaluator *)

Section evaluator_more.

Lemma rule_passes_NaN (r : ColorRule) : rule_passes NaN r = false.
Proof. unfold rule_passes. by destruct (cr_operator r). Qed.

Lemma sort_insert_least {A} (key : A → Qc) (x : A) (l : list A) :
  Forall (λ y, (key x ≤ key y)%Qc) l →
  sort_insert (λ a b, (key a - key b)%Qc) x l = x :: l.
Proof.
  destruct 1 as [|y l Hy _]; simpl; [done|].
  rewrite bool_decide_eq_false_2; [done|].
  intros Hlt%(by_key_pos key). by apply Qcle_ngt in Hy.
Qed.

Lemma array_sort_sorted_id {A} (key : A → Qc) (l : list A) :
  StronglySorted (λ a b, (key a ≤ key b)%Qc) l →
  array_sort (λ a b, (key a - key b)%Qc) l = l.
Proof.
  induction 1 as [|x l Hl IH Hx]; [done|].
  change (sort_insert (λ a b, (key a - key b)%Qc) x
            (array_sort (λ a b, (key a - key b)%Qc) l) = x :: l).
  rewrite IH. by apply sort_insert_least.
Qed.

Lemma sortRules_idempotent (R : list ColorRule) : sortRules (sortRules R) = sortRules R.
Proof. apply (array_sort_sorted_id cr_value), sortRules_sorted. Qed.
End evaluator_more.

(** X1.  Whenever some rule of the set matches the value, the colour returned
    is that of a matching rule whose threshold is the least among all
    matching rules of the set. *)
Theorem getPolygonColor_least_matching_threshold :
  ∀ (v : jsnum) (R : list ColorRule) (r : ColorRule),
    r ∈ R → rule_passes v r = true →
    ∃ w, w ∈ R ∧ rule_passes v w = true ∧
         (∀ r', r' ∈ R → rule_passes v r' = true → (cr_value w ≤ cr_value r')%Qc) ∧
         getPolygonColor (Some v) R = cr_color w.
Proof. apply winner_least. Qed.

Lemma getPolygonColor_least_matching_threshold_witness :
  ∃ w, w ∈ example_rules ∧ rule_passes (Fin (Qc_of_Z 30)) w = true ∧
       (∀ r', r' ∈ example_rules → rule_passes (Fin (Qc_of_Z 30)) r' = true →
              (cr_value w ≤ cr_value r')%Qc) ∧
       getPolygonColor (Some (Fin (Qc_of_Z 30))) example_rules = cr_color w.
Proof.
  apply (getPolygonColor_least_matching_threshold _ _ (rule OpGe 25 "C")).
  - unfold example_rules. apply list_elem_of_further, list_elem_of_further, list_elem_of_here.
  - by vm_compute.
Defined.

(** X2.  The value NaN matches no rule, so it is given the default colour by
    every rule set; and with an empty rule set every non-absent value is
    given the default colour. *)
Theorem getPolygonColor_NaN_and_no_rules :
  ∀ (R : list ColorRule) (v : jsnum),
    getPolygonColor (Some NaN) R = DEFAULT_COLOR ∧
    getPolygonColor (Some v) [] = DEFAULT_COLOR.
Proof.
  intros R v. split; [|done]. simpl. apply for_sortedRules_none.
  apply Forall_forall. intros r _. apply rule_passes_NaN.
Qed.

Section default_rules.

Lemma passes_lt (q : Qc) (r : ColorRule) :
  cr_operator r = OpLt → rule_passes (Fin q) r = bool_decide (q < cr_value r)%Qc.
Proof. unfold rule_passes. by intros ->. Qed.

Lemma passes_ge (q : Qc) (r : ColorRule) :
  cr_operator r = OpGe → rule_passes (Fin q) r = bool_decide (cr_value r ≤ q)%Qc.
Proof.
  intros Hop. apply Bool.eq_iff_eq_true.
  rewrite rule_passes_satisfies, bool_decide_eq_true. unfold satisfies. by rewrite Hop.
Qed.

(** A rule [< t] followed by a rule [>= t] decides every number. *)
Lemma lt_ge_pair_covers (v : jsnum) (r1 r2 : ColorRule) (rest : list ColorRule) :
  cr_operator r1 = OpLt → cr_operator r2 = OpGe → cr_value r1 = cr_value r2 →
  for_sortedRules v (r1 :: r2 :: rest) = cr_color r1 ∨
  for_sortedRules v (r1 :: r2 :: rest) = cr_color r2 ∨
  for_sortedRules v (r1 :: r2 :: rest) = DEFAULT_COLOR.
Proof.
  intros H1 H2 Ht. destruct v as [q| | |].
  - rewrite for_sortedRules_find. simpl.
    rewrite (passes_lt q r1 H1), (passes_ge q r2 H2), Ht.
    destruct (decide (q < cr_value r2)%Qc) as [Hlt|Hge].
    + rewrite bool_decide_eq_true_2 by done. by left.
    + rewrite bool_decide_eq_false_2 by done.
      rewrite bool_decide_eq_true_2 by by apply Qcnot_lt_le. right; by left.
  - simpl. rewrite H1, H2. simpl. right; by left.
  - simpl. rewrite H1. simpl. by left.
  - right; right. apply for_sortedRules_none, Forall_forall.
    intros r _. apply rule_passes_NaN.
Qed.
End default_rules.

Section default_rules_more.

Lemma eq_gt_pair_covers (v : jsnum) (r1 r2 : ColorRule) (rest : list ColorRule) :
  cr_operator r1 = OpEq → cr_operator r2 = OpGt → cr_value r1 = cr_value r2 →
  Forall (λ r, cr_operator r = OpGe ∧ (cr_value r2 ≤ cr_value r)%Qc) rest →
  for_sortedRules v (r1 :: r2 :: rest) = cr_color r1 ∨
  for_sortedRules v (r1 :: r2 :: rest) = cr_color r2 ∨
  for_sortedRules v (r1 :: r2 :: rest) = DEFAULT_COLOR.
Proof.
  intros H1 H2 Ht Hrest.
  assert (Hfail : ∀ v', (∀ r, cr_operator r = OpGe → (cr_value r2 ≤ cr_value r)%Qc →
                              rule_passes v' r = false) →
                        for_sortedRules v' rest = DEFAULT_COLOR).
  { intros v' Hv'. apply for_sortedRules_none.
    eapply Forall_impl; [exact Hrest|]. intros r [? ?]. by apply Hv'. }
  destruct v as [q| | |].
  - simpl. rewrite H1, H2, Ht. unfold js_gt. simpl.
    destruct (decide (q = cr_value r2)) as [Heq|Hne].
    + rewrite bool_decide_eq_true_2 by done. by left.
    + rewrite bool_decide_eq_false_2 by done.
      destruct (decide (cr_value r2 < q)%Qc) as [Hgt|Hngt].
      * rewrite bool_decide_eq_true_2 by done. right; by left.
      * rewrite bool_decide_eq_false_2 by done. right; right.
        apply Hfail. intros r Hop Hle. rewrite (passes_ge q r Hop).
        apply bool_decide_eq_false_2. intros Hrq.
        apply Hngt. destruct (Qcle_lt_or_eq _ _ (Qcle_trans _ _ _ Hle Hrq)); [done|].
        by destruct Hne.
  - simpl. rewrite H1, H2. simpl. right; by left.
  - simpl. rewrite H1, H2. simpl. right; right.
    apply Hfail. intros r Hop _. unfold rule_passes. by rewrite Hop.
  - right; right. apply for_sortedRules_none, Forall_forall.
    intros r _. apply rule_passes_NaN.
Qed.
End default_rules_more.

(** X3.  In each of the four default data sources only the first two rules
    can ever decide the colour: for every non-absent value the colour is that
    of rule "1", that of rule "2", or the default colour, and the colours of
    rules "3" and "4" are none of these. *)
Theorem default_rules_three_and_four_never_win :
  ∀ (ds : DataSource) (v : jsnum),
    ds ∈ DEFAULT_DATA_SOURCES →
    ∃ r1 r2 r3 r4,
      ds_colorRules ds = [r1; r2; r3; r4] ∧
      (getPolygonColor (Some v) (ds_colorRules ds) = cr_color r1 ∨
       getPolygonColor (Some v) (ds_colorRules ds) = cr_color r2 ∨
       getPolygonColor (Some v) (ds_colorRules ds) = DEFAULT_COLOR) ∧
      (cr_color r3 ∉ [cr_color r1; cr_color r2; DEFAULT_COLOR]) ∧
      (cr_color r4 ∉ [cr_color r1; cr_color r2; DEFAULT_COLOR]).
Proof.
  intros ds v Hds. unfold DEFAULT_DATA_SOURCES in Hds.
  assert (Hfresh : ∀ a b c d : string,
            a ≠ b → a ≠ c → a ≠ d → a ∉ [b; c; d]).
  { intros a b c d ? ? ? Hin. repeat (apply elem_of_cons in Hin as [?|Hin]; [done|]).
    by apply elem_of_nil in Hin. }
  repeat (apply elem_of_cons in Hds as [->|Hds]); [| | | |by apply elem_of_nil in Hds];
    do 4 eexists; (split; [reflexivity|]);
    (split; [|split; by apply Hfresh]);
    cbn [getPolygonColor ds_colorRules];
    match goal with
    | |- context [sortRules ?l] => replace (sortRules l) with l by by vm_compute
    end.
  - by apply lt_ge_pair_covers.
  - by apply lt_ge_pair_covers.
  - apply eq_gt_pair_covers; [done..|].
    repeat constructor; simpl; by apply Z2Qc_inj_le.
  - by apply lt_ge_pair_covers.
Qed.

Lemma default_rules_three_and_four_witness :
  ∃ r1 r2 r3 r4,
    [colorRule "1" OpLt 10 "#1890ff"; colorRule "2" OpGe 10 "#52c41a";
     colorRule "3" OpGe 25 "#fa8c16"; colorRule "4" OpGe 35 "#f5222d"] = [r1; r2; r3; r4] ∧
    (getPolygonColor (Some (Fin (Qc_of_Z 40)))
       [colorRule "1" OpLt 10 "#1890ff"; colorRule "2" OpGe 10 "#52c41a";
        colorRule "3" OpGe 25 "#fa8c16"; colorRule "4" OpGe 35 "#f5222d"] = cr_color r1 ∨
     getPolygonColor (Some (Fin (Qc_of_Z 40)))
       [colorRule "1" OpLt 10 "#1890ff"; colorRule "2" OpGe 10 "#52c41a";
        colorRule "3" OpGe 25 "#fa8c16"; colorRule "4" OpGe 35 "#f5222d"] = cr_color r2 ∨
     getPolygonColor (Some (Fin (Qc_of_Z 40)))
       [colorRule "1" OpLt 10 "#1890ff"; colorRule "2" OpGe 10 "#52c41a";
        colorRule "3" OpGe 25 "#fa8c16"; colorRule "4" OpGe 35 "#f5222d"] = DEFAULT_COLOR) ∧
    (cr_color r3 ∉ [cr_color r1; cr_color r2; DEFAULT_COLOR]) ∧
    (cr_color r4 ∉ [cr_color r1; cr_color r2; DEFAULT_COLOR]).
Proof.
  apply (default_rules_three_and_four_never_win
           {| ds_id := "temperature"; ds_name := "Temperature"; ds_field := "temperature_2m";
              ds_colorRules :=
                [colorRule "1" OpLt 10 "#1890ff"; colorRule "2" OpGe 10 "#52c41a";
                 colorRule "3" OpGe 25 "#fa8c16"; colorRule "4" OpGe 35 "#f5222d"] |}
           (Fin (Qc_of_Z 40))).
  apply list_elem_of_here.
Defined.

(** ** The colour legend and the rule editor *)

Lemma getPolygonColor_sorted_input (v : option jsnum) (R : list ColorRule) :
  getPolygonColor v (sortRules R) = getPolygonColor v R.
Proof. destruct v as [v|]; simpl; [|done]. by rewrite sortRules_idempotent. Qed.



(** X5.  "Add Rule" appends the rule >= 0 with colour #1890ff to the rule
    array of every data source carrying the edited id; when all existing
    thresholds are positive, every value from 0 upwards is then given that
    rule's colour, whatever the other rules say. *)
Theorem handleAddRule_new_rule_wins :
  ∀ (now : Z) (ds : DataSource) (st : DashboardState) (x : Qc),
    (∀ r, r ∈ ds_colorRules ds → (0 < cr_value r)%Qc) → (0 ≤ x)%Qc →
    (∀ ds', ds' ∈ dataSources (handleAddRule now ds st) → ds_id ds' = ds_id ds →
            ds_colorRules ds' = ds_colorRules ds ++ [newRule now]) ∧
    getPolygonColor (Some (Fin x)) (ds_colorRules ds ++ [newRule now]) = "#1890ff".
Proof.
  intros now ds st x Hpos Hx. split.
  - intros ds' Hin Hid. unfold handleAddRule, updateDataSource in Hin. simpl in Hin.
    apply list_elem_of_fmap in Hin as (ds0 & -> & _).
    case_bool_decide as Hid0; [done|]. by destruct Hid0.
  - destruct (winner_least (Fin x) (ds_colorRules ds ++ [newRule now]) (newRule now))
      as (w & Hw & _ & Hleast & ->).
    + apply elem_of_app. right. apply list_elem_of_here.
    + rewrite (passes_ge x (newRule now) eq_refl). by apply bool_decide_eq_true_2.
    + apply elem_of_app in Hw as [Hw|Hw%list_elem_of_singleton]; [|by subst].
      exfalso. specialize (Hpos w Hw).
      assert (Hle : (cr_value w ≤ 0)%Qc).
      { apply (Hleast (newRule now)).
        - apply elem_of_app. right. apply list_elem_of_here.
        - rewrite (passes_ge x (newRule now) eq_refl). by apply bool_decide_eq_true_2. }
      by apply Qcle_ngt in Hle.
Qed.

Lemma handleAddRule_new_rule_wins_witness :
  getPolygonColor (Some (Fin (Qc_of_Z 30)))
    ([colorRule "1" OpLt 10 "#ff4d4f"; colorRule "2" OpGe 10 "#52c41a"] ++ [newRule 1718452800000])
  = "#1890ff".
Proof.
  apply (handleAddRule_new_rule_wins 1718452800000
           {| ds_id := "custom"; ds_name := "Custom"; ds_field := "temperature_2m";
              ds_colorRules :=
                [colorRule "1" OpLt 10 "#ff4d4f"; colorRule "2" OpGe 10 "#52c41a"] |}
           (initialState t_2024_06_15_12h) (Qc_of_Z 30)).
  - intros r Hr. simpl in Hr.
    repeat (apply elem_of_cons in Hr as [->|Hr]); [| |by apply elem_of_nil in Hr];
      simpl; rewrite <- Z2Qc_inj_0; by apply Z2Qc_inj_lt.
  - rewrite <- Z2Qc_inj_0. by apply Z2Qc_inj_le.
Defined.

(** ** Means and extrema *)

Section mean_facts.

Lemma mean_singleton (x : Qc) : mean [x] = x.
Proof.
  change ((x + 0) / Qc_of_Z 1 = x)%Qc.
  rewrite Qcplus_0_r, Z2Qc_inj_1. apply (right_id 1%Qc Qcdiv).
Qed.

End mean_facts.

(** ** Further properties of range mode *)

Section range_more.

Lemma slice_one {A} (i : nat) (data : list A) (d : A) :
  data !! i = Some d → slice (Z.of_nat i) (Z.of_nat i) data = [d].
Proof.
  intros Hd. unfold slice. rewrite Nat2Z.id.
  replace (Z.to_nat (Z.of_nat i + 1 - Z.max 0 (Z.of_nat i))) with 1%nat by lia.
  rewrite (drop_S _ _ _ Hd). simpl. by rewrite take_0.
Qed.

Lemma slice_nil_iff {A} (s e : Z) (data : list A) :
  slice s e data = [] ↔ e < Z.max 0 s ∨ Z.of_nat (length data) ≤ Z.max 0 s.
Proof.
  unfold slice. split.
  - intros H. apply (f_equal length) in H. rewrite length_take, length_drop in H.
    simpl in H. lia.
  - intros H. apply length_zero_iff_nil. rewrite length_take, length_drop. lia.
Qed.

Lemma slice_clamp {A} (s e : Z) (data : list A) :
  slice (Z.max 0 s) (Z.min e (Z.of_nat (length data) - 1)) data = slice s e data.
Proof.
  unfold slice.
  replace (Z.to_nat (Z.max 0 s)) with (Z.to_nat s) by lia.
  replace (Z.max 0 (Z.max 0 s)) with (Z.max 0 s) by lia.
  destruct (decide (e ≤ Z.of_nat (length data) - 1)) as [He|He].
  - by replace (Z.min e (Z.of_nat (length data) - 1)) with e by lia.
  - rewrite !take_ge; [done|rewrite length_drop; lia..].
Qed.
End range_more.

(** X6.  In range mode a range whose start and end are the same position of
    the series yields the value stored at that position, whatever the base
    date, the selected hour, the time zone and the timestamps are. *)
Theorem range_mode_single_position :
  ∀ (tz : Z) (st : DashboardState) (id : string) (data : list WeatherData)
    (i : nat) (d : WeatherData),
    weatherData st !! id = Some data → data !! i = Some d →
    mode (timeline st) = range →
    selectedRange (timeline st) = (Z.of_nat i, Z.of_nat i) →
    getPolygonCurrentValue tz st id = Normal (Some (Fin (wd_value d))).
Proof.
  intros tz st id data i d Hdata Hd Hmode Hrange.
  rewrite (getPolygonCurrentValue_range tz st id data _ _ Hdata) by (done || by destruct data).
  rewrite (slice_one i data d Hd). simpl. by rewrite mean_singleton.
Qed.

Lemma range_mode_single_position_witness :
  getPolygonCurrentValue 3600000
    (state_with (range_at None 2 2)
       [reading "a" 4; reading "b" 6; reading "c" 9; reading "d" 1])
    "polygon_1" = Normal (Some (Fin (Qc_of_Z 9))).
Proof.
  apply (range_mode_single_position 3600000 _ "polygon_1"
           [reading "a" 4; reading "b" 6; reading "c" 9; reading "d" 1]
           2%nat (reading "c" 9)).
  - apply lookup_singleton_eq.
  - done.
  - done.
  - done.
Defined.

(** X8.  Range mode clamps the selected range to the series: the result for
    [start, end] is the result for [max(0, start), min(end, length - 1)]; and
    on a non-empty series the result is absent exactly when the end lies
    before the start or before position 0, or the start lies beyond the last
    position. *)
Theorem range_mode_clamped_to_series :
  ∀ (tz : Z) (st : DashboardState) (id : string) (data : list WeatherData) (s e : Z),
    weatherData st !! id = Some data → data ≠ [] →
    mode (timeline st) = range → selectedRange (timeline st) = (s, e) →
    getPolygonCurrentValue tz
      (setSelectedRange (Z.max 0 s, Z.min e (Z.of_nat (length data) - 1)) st) id =
      getPolygonCurrentValue tz st id ∧
    (getPolygonCurrentValue tz st id = Normal None ↔
     e < Z.max 0 s ∨ Z.of_nat (length data) ≤ s).
Proof.
  intros tz st id data s e Hdata Hne Hmode Hrange. split.
  - rewrite (getPolygonCurrentValue_range tz st id data s e) by done.
    rewrite (getPolygonCurrentValue_range tz _ id data
               (Z.max 0 s) (Z.min e (Z.of_nat (length data) - 1))) by done.
    by rewrite slice_clamp.
  - rewrite (getPolygonCurrentValue_range tz st id data s e) by done.
    destruct (slice s e data) as [|x l] eqn:Hslice.
    + apply slice_nil_iff in Hslice. split; [intros _|done].
      destruct Hslice as [?|?]; [by left|right].
      assert (0 < Z.of_nat (length data)) by (destruct data; [done|simpl; lia]). lia.
    + split; [done|]. intros Hout.
      assert (slice s e data = []) as Hnil by (apply slice_nil_iff; lia). congruence.
Qed.

Lemma range_mode_clamped_to_series_witness :
  getPolygonCurrentValue 0
    (setSelectedRange (Z.max 0 (-5), Z.min 100 (Z.of_nat 4 - 1))
       (state_with (range_at None (-5) 100)
          [reading "a" 4; reading "b" 6; reading "c" 9; reading "d" 1])) "polygon_1" =
  getPolygonCurrentValue 0
    (state_with (range_at None (-5) 100)
       [reading "a" 4; reading "b" 6; reading "c" 9; reading "d" 1]) "polygon_1".
Proof.
  apply (range_mode_clamped_to_series 0
           (state_with (range_at None (-5) 100)
              [reading "a" 4; reading "b" 6; reading "c" 9; reading "d" 1])
           "polygon_1" [reading "a" 4; reading "b" 6; reading "c" 9; reading "d" 1] (-5) 100).
  - apply lookup_singleton_eq.
  - done.
  - done.
  - done.
Defined.

(** ** Further properties of the geometry helpers *)

Section geometry_more.

Lemma is_least_perm (m : Qc) (xs ys : list Qc) : xs ≡ₚ ys → is_least m xs → is_least m ys.
Proof.
  intros Hp [Hin Hle]. split; [by rewrite <- Hp|].
  intros x Hx. apply Hle. by rewrite Hp.
Qed.

Lemma is_greatest_perm (m : Qc) (xs ys : list Qc) :
  xs ≡ₚ ys → is_greatest m xs → is_greatest m ys.
Proof.
  intros Hp [Hin Hle]. split; [by rewrite <- Hp|].
  intros x Hx. apply Hle. by rewrite Hp.
Qed.

Lemma Math_min_perm (xs ys : list Qc) : xs ≡ₚ ys → Math_min xs = Math_min ys.
Proof.
  intros Hp. destruct xs as [|x xs].
  - by apply Permutation_nil_l in Hp as ->.
  - assert (ys ≠ []) as Hys by (intros ->; by apply Permutation_nil_r in Hp).
    destruct (Math_min_least (x :: xs)) as (m & -> & Hm); [done|].
    destruct (Math_min_least ys Hys) as (m' & -> & Hm').
    f_equal. apply (is_least_unique _ _ ys); [by apply (is_least_perm _ (x :: xs))|done].
Qed.

Lemma Math_max_perm (xs ys : list Qc) : xs ≡ₚ ys → Math_max xs = Math_max ys.
Proof.
  intros Hp. destruct xs as [|x xs].
  - by apply Permutation_nil_l in Hp as ->.
  - assert (ys ≠ []) as Hys by (intros ->; by apply Permutation_nil_r in Hp).
    destruct (Math_max_greatest (x :: xs)) as (m & -> & Hm); [done|].
    destruct (Math_max_greatest ys Hys) as (m' & -> & Hm').
    f_equal. apply (is_greatest_unique _ _ ys); [by apply (is_greatest_perm _ (x :: xs))|done].
Qed.
End geometry_more.

(** X10.  The bounding box does not depend on the order of the points: any
    rearrangement of the point list gives the same box. *)
Theorem calculateBoundingBox_order_independent :
  ∀ points points' : list (Qc * Qc),
    points ≡ₚ points' →
    calculateBoundingBox points = calculateBoundingBox points'.
Proof.
  intros points points' Hp. unfold calculateBoundingBox.
  rewrite (Math_min_perm (fst <$> points) (fst <$> points')) by by rewrite Hp.
  rewrite (Math_max_perm (fst <$> points) (fst <$> points')) by by rewrite Hp.
  rewrite (Math_min_perm (snd <$> points) (snd <$> points')) by by rewrite Hp.
  by rewrite (Math_max_perm (snd <$> points) (snd <$> points')) by by rewrite Hp.
Qed.

Lemma calculateBoundingBox_order_independent_witness :
  calculateBoundingBox triangle = calculateBoundingBox (reverse triangle).
Proof.
  apply calculateBoundingBox_order_independent.
  apply Permutation_sym, reverse_Permutation.
Defined.

(** X11.  Neither helper throws on degenerate input.  For the empty list the
    centroid is (NaN, NaN) and the box is inverted and infinite (minima
    +Infinity, maxima -Infinity); for a single point the centroid is the
    point and the box collapses onto it. *)
Theorem geometry_degenerate_inputs :
  ∀ lat lng : Qc,
    calculateCentroid [] = (NaN, NaN) ∧
    calculateBoundingBox [] =
      {| minLat := PosInf; maxLat := NegInf; minLng := PosInf; maxLng := NegInf |} ∧
    calculateCentroid [(lat, lng)] = (Fin lat, Fin lng) ∧
    calculateBoundingBox [(lat, lng)] =
      {| minLat := Fin lat; maxLat := Fin lat; minLng := Fin lng; maxLng := Fin lng |}.
Proof.
  intros lat lng. split_and!.
  - by vm_compute.
  - done.
  - rewrite calculateCentroid_mean by done. simpl. by rewrite !mean_singleton.
  - done.
Qed.

(** ** The date range and the fetch paths *)

Section fetch_facts.

Lemma getDateRange_value (tz t : Z) :
  Z.abs t ≤ maxTime - 15 * msPerDay →
  getDateRange tz (Some t) = (Some (t - 15 * msPerDay), Some (t + 15 * msPerDay)).
Proof.
  intros Ht. unfold getDateRange.
  change (λ d, d - 15) with (λ d, d + -15).
  rewrite !setDate_shift, !TimeClip_in_range by (unfold maxTime, msPerDay in *; lia).
  do 2 f_equal; lia.
Qed.

Lemma formatDate_valid (t : Z) : ∃ s, formatDate (Some t) = Normal s.
Proof. unfold formatDate. simpl. by eexists. Qed.

Lemma request_sent (centroid : jsnum * jsnum) (t1 t2 : Z) (field : string) :
  ∃ r, fetchWeatherData_request centroid (Some t1) (Some t2) field = Normal r ∧
       formatDate (Some t1) = Normal (start_date r) ∧
       formatDate (Some t2) = Normal (end_date r) ∧
       hourly r = field ∧ timezone r = "UTC" ∧
       (latitude r, longitude r) = centroid.
Proof.
  unfold fetchWeatherData_request. destruct centroid as [lat lng].
  destruct (formatDate_valid t1) as [s1 Hs1], (formatDate_valid t2) as [s2 Hs2].
  rewrite Hs1, Hs2. simpl. by eexists.
Qed.
End fetch_facts.

(** X12.  In a zone with a fixed offset, for a base date at least fifteen
    days inside the representable range, [getDateRange] returns the instants
    exactly 15 x 24 hours before and after the base date (the time of day is
    kept, the window is 30 days wide); for an invalid base date both ends are
    invalid. *)
Theorem getDateRange_fifteen_days_each_side :
  ∀ tz t : Z,
    Z.abs t ≤ maxTime - 15 * msPerDay →
    getDateRange tz (Some t) = (Some (t - 15 * msPerDay), Some (t + 15 * msPerDay)) ∧
    getDateRange tz None = (None, None).
Proof. intros tz t Ht. split; [by apply getDateRange_value|done]. Qed.

Lemma getDateRange_fifteen_days_witness :
  getDateRange 19800000 (Some t_2024_06_15_12h) =
    (Some (t_2024_06_15_12h - 15 * msPerDay), Some (t_2024_06_15_12h + 15 * msPerDay)) ∧
  getDateRange 19800000 None = (None, None).
Proof. apply (getDateRange_fifteen_days_each_side 19800000 t_2024_06_15_12h). by vm_compute. Defined.

(** X13.  [isValidDateForAPI] is true exactly for the valid dates whose time
    value lies between 1940-01-01T00:00:00.000Z and five times 24 hours
    before the current instant, both ends included; an invalid date is
    rejected. *)
Theorem isValidDateForAPI_exact_window :
  ∀ (now : Z) (date : option Z),
    Z.abs (now - 432000000) ≤ maxTime →
    (isValidDateForAPI now date = true ↔
     ∃ t, date = Some t ∧ -946771200000 ≤ t ≤ now - 432000000) ∧
    isValidDateForAPI now None = false ∧
    toISOString (Some (-946771200000)) = Normal "1940-01-01T00:00:00.000Z".
Proof.
  intros now date Hnow. split_and!.
  - by apply isValidDateForAPI_window.
  - done.
  - by vm_compute.
Qed.

Lemma isValidDateForAPI_exact_window_witness :
  (isValidDateForAPI t_2024_06_15_12h (Some t_2024_01_16_10h) = true ↔
   ∃ t, Some t_2024_01_16_10h = Some t ∧
        -946771200000 ≤ t ≤ t_2024_06_15_12h - 432000000) ∧
  isValidDateForAPI t_2024_06_15_12h None = false ∧
  toISOString (Some (-946771200000)) = Normal "1940-01-01T00:00:00.000Z".
Proof.
  apply (isValidDateForAPI_exact_window t_2024_06_15_12h (Some t_2024_01_16_10h)).
  by vm_compute.
Defined.

(** X14.  In a zone with a fixed offset, the dashboard effect sends nothing
    when the base date is later than twenty days before the current instant
    or earlier than 1940-01-16T00:00Z (its date range then leaves the
    window), in particular when the base date is the current instant;
    otherwise it sends one request for each polygon whose data source
    exists. *)
Theorem dashboard_fetch_only_inside_window :
  ∀ (tz now t : Z) (st : DashboardState),
    baseDate (timeline st) = Some t →
    Z.abs t ≤ maxTime - 15 * msPerDay →
    Z.abs (now - 432000000) ≤ maxTime →
    (now - 20 * msPerDay < t ∨ t < -946771200000 + 15 * msPerDay →
     fetchWeatherDataForAllPolygons tz now st = []) ∧
    (-946771200000 + 15 * msPerDay ≤ t ≤ now - 20 * msPerDay →
     length (fetchWeatherDataForAllPolygons tz now st) =
       length (filter (λ p, pg_dataSourceId p ∈ ds_id <$> dataSources st) (polygons st))).
Proof.
  intros tz now t st Hbase Ht Hnow.
  pose proof (isValidDateForAPI_window now (Some (t - 15 * msPerDay)) Hnow) as Hstart.
  pose proof (isValidDateForAPI_window now (Some (t + 15 * msPerDay)) Hnow) as Hend.
  unfold fetchWeatherDataForAllPolygons. rewrite Hbase, getDateRange_value by done.
  split.
  - intros Hout. case_bool_decide; [done|].
    destruct (isValidDateForAPI now (Some (t - 15 * msPerDay))) eqn:H1; [|done].
    destruct (isValidDateForAPI now (Some (t + 15 * msPerDay))) eqn:H2; [|done].
    exfalso.
    destruct (proj1 Hstart eq_refl) as (? & [= <-] & ?).
    destruct (proj1 Hend eq_refl) as (? & [= <-] & ?).
    unfold msPerDay in *. lia.
  - intros Hin.
    rewrite (proj2 Hstart), (proj2 Hend)
      by (eexists; split; [done|unfold msPerDay in *; lia]).
    simpl. case_bool_decide as Hlen.
    { by apply length_zero_iff_nil in Hlen as ->. }
    clear Hlen. induction (polygons st) as [|p ps IH]; [done|].
    rewrite filter_cons. cbn [mbind list_bind]. rewrite length_app, IH. clear IH.
    destruct (find _ (dataSources st)) as [ds|] eqn:Hfind.
    + apply find_some in Hfind as [Hds Hid%bool_decide_eq_true].
      rewrite decide_True
        by (rewrite <- Hid; apply list_elem_of_fmap_2; by rewrite list_elem_of_In).
      destruct (request_sent (pg_centroid p) (t - 15 * msPerDay) (t + 15 * msPerDay)
                  (ds_field ds)) as (r & -> & _). done.
    + rewrite decide_False; [done|]. intros (ds & Hid & Hds)%list_elem_of_fmap.
      apply list_elem_of_In in Hds. pose proof (find_none _ _ Hfind _ Hds) as Hno.
      simpl in Hno. by apply bool_decide_eq_false in Hno.
Qed.

Lemma dashboard_fetch_only_inside_window_witness :
  fetchWeatherDataForAllPolygons 0 t_2024_06_15_12h
    (state_with (timeline (initialState t_2024_06_15_12h)) []) = [].
Proof.
  apply (dashboard_fetch_only_inside_window 0 t_2024_06_15_12h t_2024_06_15_12h).
  - done.
  - by vm_compute.
  - by vm_compute.
  - left. by vm_compute.
Defined.

(** X15.  [fetchWeatherDataForPolygon] never consults the date window: in a
    zone with a fixed offset, for every valid base date at least fifteen
    days inside the representable range and every known data source it sends
    exactly one request, for the field of that data source and the dates
    fifteen days either side of the base date; it sends nothing when the
    data source is unknown. *)
Theorem fetchWeatherDataForPolygon_always_sends :
  ∀ (tz t : Z) (st : DashboardState) (polygonId dataSourceId : string)
    (centroid : jsnum * jsnum),
    baseDate (timeline st) = Some t →
    Z.abs t ≤ maxTime - 15 * msPerDay →
    (∀ ds, find (λ ds, bool_decide (ds_id ds = dataSourceId)) (dataSources st) = Some ds →
       ∃ r, fetchWeatherDataForPolygon tz st polygonId centroid dataSourceId = [r] ∧
            formatDate (Some (t - 15 * msPerDay)) = Normal (start_date r) ∧
            formatDate (Some (t + 15 * msPerDay)) = Normal (end_date r) ∧
            hourly r = ds_field ds ∧ timezone r = "UTC") ∧
    (find (λ ds, bool_decide (ds_id ds = dataSourceId)) (dataSources st) = None →
     fetchWeatherDataForPolygon tz st polygonId centroid dataSourceId = []).
Proof.
  intros tz t st polygonId dataSourceId centroid Hbase Ht.
  unfold fetchWeatherDataForPolygon. split.
  - intros ds ->. rewrite Hbase, getDateRange_value by done.
    destruct (request_sent centroid (t - 15 * msPerDay) (t + 15 * msPerDay) (ds_field ds))
      as (r & -> & ? & ? & ? & ? & _).
    by exists r.
  - by intros ->.
Qed.

Lemma fetchWeatherDataForPolygon_always_sends_witness :
  ∃ r,
    fetchWeatherDataForPolygon 0 (state_with (single_at (Some t_2024_06_15_12h) 360) [])
      "polygon_1" (calculateCentroid triangle) "temperature" = [r] ∧
    start_date r = "2024-05-31" ∧ end_date r = "2024-06-30" ∧
    hourly r = "temperature_2m" ∧ timezone r = "UTC".
Proof.
  destruct (fetchWeatherDataForPolygon_always_sends 0 t_2024_06_15_12h
              (state_with (single_at (Some t_2024_06_15_12h) 360) [])
              "polygon_1" "temperature" (calculateCentroid triangle))
    as [Hsent _].
  - done.
  - by vm_compute.
  - destruct (Hsent _ eq_refl) as (r & Hr & Hstart & Hend & Hfield & Hzone).
    exists r. split; [exact Hr|].
    assert (formatDate (Some (t_2024_06_15_12h - 15 * msPerDay)) = Normal "2024-05-31")
      as Hs by by vm_compute.
    assert (formatDate (Some (t_2024_06_15_12h + 15 * msPerDay)) = Normal "2024-06-30")
      as He by by vm_compute.
    rewrite Hs in Hstart. rewrite He in Hend.
    split_and!; [congruence|congruence|exact Hfield|exact Hzone].
Defined.

(** ** The single-mode timestamp *)

Section stamp_facts.

Lemma append_cons (x : ascii) (a b : string) : String x a +:+ b = String x (a +:+ b).
Proof. reflexivity. Qed.

Lemma append_nil_l (b : string) : "" +:+ b = b.
Proof. reflexivity. Qed.

Lemma append_assoc (a b c : string) : (a +:+ b) +:+ c = a +:+ (b +:+ c).
Proof.
  induction a as [|x a IH]; [done|].
  by rewrite !append_cons, IH.
Qed.

Lemma fixed_dec_S (w : nat) (n : Z) (acc : string) :
  fixed_dec (S w) n acc = fixed_dec w (n `div` 10) (String (digit (n `mod` 10)) acc).
Proof. reflexivity. Qed.

Lemma fixed_dec_app (w : nat) (n : Z) (acc : string) :
  fixed_dec w n acc = fixed_dec w n "" +:+ acc.
Proof.
  revert n acc. induction w as [|w IH]; intros n acc; [done|].
  rewrite !fixed_dec_S.
  rewrite (IH _ (String _ acc)), (IH _ (String _ "")).
  by rewrite append_assoc, append_cons, append_nil_l.
Qed.

Lemma digit_not_T (n : Z) : digit (n `mod` 10) ≠ "T"%char.
Proof.
  pose proof (Z.mod_pos_bound n 10 eq_refl) as Hd.
  unfold digit.
  assert (Z.to_nat (n `mod` 10) < 10)%nat as Hlt by lia.
  destruct (Z.to_nat (n `mod` 10)) as [|[|[|[|[|[|[|[|[|[|k]]]]]]]]]]; try done. lia.
Qed.

Lemma split_head_cons_ne (sep c : ascii) (s : string) :
  c ≠ sep → split_head sep (String c s) = String c (split_head sep s).
Proof. intros Hc. cbn [split_head]. by rewrite bool_decide_eq_false_2. Qed.

Lemma split_head_cons_eq (sep : ascii) (s : string) : split_head sep (String sep s) = "".
Proof. cbn [split_head]. by rewrite bool_decide_eq_true_2. Qed.

Lemma split_head_fixed_dec (w : nat) (n : Z) (acc : string) :
  split_head "T" (fixed_dec w n acc) = fixed_dec w n (split_head "T" acc).
Proof.
  revert n acc. induction w as [|w IH]; intros n acc; [done|].
  rewrite !fixed_dec_S, IH. by rewrite split_head_cons_ne by apply digit_not_T.
Qed.

Lemma split_head_iso_year (y : Z) (rest : string) :
  split_head "T" (iso_year y +:+ rest) = iso_year y +:+ split_head "T" rest.
Proof.
  unfold iso_year. repeat case_bool_decide.
  - by rewrite <- !fixed_dec_app, split_head_fixed_dec.
  - rewrite !append_cons, !append_nil_l, <- !fixed_dec_app.
    by rewrite split_head_cons_ne, split_head_fixed_dec by done.
  - rewrite !append_cons, !append_nil_l, <- !fixed_dec_app.
    by rewrite split_head_cons_ne, split_head_fixed_dec by done.
Qed.

Lemma split_head_date (t : Z) (rest : string) :
  split_head "T" (isoDate t +:+ "T" +:+ rest) = isoDate t.
Proof.
  unfold isoDate.
  generalize (YearFromTime t) (MonthFromTime t + 1) (DateFromTime t). intros y m d.
  rewrite !append_assoc, split_head_iso_year. f_equal.
  rewrite !append_cons, !append_nil_l, <- !fixed_dec_app.
  rewrite split_head_cons_ne by done. f_equal.
  rewrite split_head_fixed_dec, split_head_cons_ne by done.
  rewrite split_head_fixed_dec, split_head_cons_eq. done.
Qed.

Lemma hours_padStart (h : Z) :
  0 ≤ h < 24 → padStart 2 "0" (hours_toString (Some h)) = fixed_dec 2 h "".
Proof.
  intros Hh. replace h with (Z.of_nat (Z.to_nat h)) by lia.
  assert (Z.to_nat h < 24)%nat as Hlt by lia.
  generalize dependent (Z.to_nat h). intros n Hn.
  do 24 (destruct n as [|n]; [by vm_compute|]). lia.
Qed.

Lemma HourFromTime_range (t : Z) : 0 ≤ HourFromTime t < 24.
Proof. unfold HourFromTime. apply Z.mod_pos_bound. lia. Qed.

Lemma toISOString_shape (t : Z) :
  ∃ rest, toISOString (Some t) =
          Normal (isoDate t +:+ "T" +:+ fixed_dec 2 (HourFromTime t) "" +:+ ":" +:+ rest).
Proof.
  eexists. unfold toISOString, isoDate. by rewrite !append_assoc.
Qed.

Lemma targetTimestamp_of_shape (tz t : Z) :
  targetTimestamp_of tz (Some t) =
    Normal (isoDate t +:+ "T" +:+ fixed_dec 2 (HourFromTime (LocalTime tz t)) "" +:+ ":00").
Proof.
  unfold targetTimestamp_of.
  destruct (toISOString_shape t) as [rest ->].
  cbn [mbind completion_bind mret completion_ret getHours option_bind].
  rewrite split_head_date, hours_padStart by apply HourFromTime_range. done.
Qed.

Lemma isoDate_same_day (a b : Z) : Day a = Day b → isoDate a = isoDate b.
Proof.
  intros H. unfold isoDate, MonthFromTime, DateFromTime, MonthFromTime, InLeapYear,
    DayWithinYear, YearFromTime. by rewrite H.
Qed.
End stamp_facts.

(** X16.  Single mode in a zone with a fixed offset, on a non-empty series,
    for a valid base date and an offset [h] of the 720-hour window: the
    resolver returns the value of the first entry whose timestamp starts
    with "<date>T<HH>:00", where HH is [h mod 24] in two digits and <date>
    is the UTC calendar date of the instant that lies [h] hours after the
    start of the local day fifteen days before the base date (plus the
    minutes of the base date); it returns absent when no entry has that
    prefix.  In UTC this prefix is the hour stamp of the instant [h] hours
    after midnight of the day fifteen days before the base date. *)
Theorem single_mode_hour_stamp :
  ∀ (tz t h : Z) (st : DashboardState) (id : string) (data : list WeatherData),
    weatherData st !! id = Some data → data ≠ [] →
    mode (timeline st) = single →
    baseDate (timeline st) = Some t → selectedHour (timeline st) = h →
    Z.abs t ≤ maxTime - 16 * msPerDay → 0 ≤ h ≤ 719 →
    getPolygonCurrentValue tz st id =
      Normal ((λ d, Fin (wd_value d)) <$>
              find (λ d, startsWith (wd_timestamp d)
                           (isoDate (t - 15 * msPerDay + h * msPerHour
                                     - HourFromTime (LocalTime tz t) * msPerHour)
                            +:+ "T" +:+ fixed_dec 2 (h `mod` 24) "" +:+ ":00"))
                   data) ∧
    isoDate (t - 15 * msPerDay + h * msPerHour - HourFromTime (LocalTime 0 t) * msPerHour)
      +:+ "T" +:+ fixed_dec 2 (h `mod` 24) "" +:+ ":00" =
    hourStamp ((Day t - 15) * msPerDay + h * msPerHour).
Proof.
  intros tz t h st id data Hdata Hne Hmode Hbase Hh Ht Hrange. split.
  - unfold getPolygonCurrentValue.
    rewrite Hdata, Hmode, Hbase, Hh.
    rewrite bool_decide_eq_false_2 by by destruct data.
    rewrite targetDate_of_value, targetTimestamp_of_shape by done.
    cbn [mbind completion_bind mret completion_ret].
    replace (HourFromTime
               (LocalTime tz (t - 15 * msPerDay + h * msPerHour
                              - HourFromTime (LocalTime tz t) * msPerHour)))
      with (h `mod` 24); [done|].
    unfold HourFromTime, LocalTime, msPerDay, msPerHour.
    Z.div_mod_to_equations. lia.
  - unfold hourStamp.
    replace (HourFromTime ((Day t - 15) * msPerDay + h * msPerHour)) with (h `mod` 24)
      by (unfold HourFromTime, Day, msPerDay, msPerHour; Z.div_mod_to_equations; lia).
    f_equal. apply isoDate_same_day.
    unfold HourFromTime, LocalTime, Day, msPerDay, msPerHour.
    Z.div_mod_to_equations. lia.
Qed.

Lemma single_mode_hour_stamp_witness :
  getPolygonCurrentValue 0
    (state_with (single_at (Some t_2024_01_16_10h) 34)
       [reading "2024-01-02T09:00" 3; reading "2024-01-02T10:00" 8]) "polygon_1" =
    Normal (Some (Fin (Qc_of_Z 8))).
Proof.
  etransitivity.
  - apply (single_mode_hour_stamp 0 t_2024_01_16_10h 34
             (state_with (single_at (Some t_2024_01_16_10h) 34)
                [reading "2024-01-02T09:00" 3; reading "2024-01-02T10:00" 8])
             "polygon_1" [reading "2024-01-02T09:00" 3; reading "2024-01-02T10:00" 8]).
    + apply lookup_singleton_eq.
    + done.
    + done.
    + done.
    + done.
    + by vm_compute.
    + done.
  - by vm_compute.
Defined.

(** ** The timeline slider *)

(** X17.  In a zone with a fixed offset the day marks under the slider are
    drawn all or none: for a valid base date, the mark at each of the 31
    offsets 0, 24, ..., 720 is drawn exactly when the local hour of day of
    the base date is 0. *)
Theorem renderMark_all_or_none :
  ∀ (tz t hour : Z) (st : DashboardState),
    baseDate (timeline st) = Some t →
    Z.abs t ≤ maxTime - 16 * msPerDay →
    hour ∈ markHours →
    renderMark_shown tz st hour = bool_decide (HourFromTime (LocalTime tz t) = 0).
Proof.
  intros tz t hour st Hbase Ht Hhour.
  apply list_elem_of_fmap in Hhour as (i & -> & Hi%elem_of_seq).
  unfold renderMark_shown, getDateFromHour, addDays, addHours.
  rewrite Hbase, bool_decide_eq_false_2 by done.
  rewrite setDate_shift, TimeClip_in_range by (unfold maxTime, msPerDay in *; lia).
  cbn [mbind option_bind].
  rewrite TimeClip_in_range by (unfold maxTime, msPerDay, msPerHour in *; lia).
  cbn [getHours mbind option_bind].
  replace (HourFromTime (LocalTime tz (t + -15 * msPerDay + Z.of_nat i * 24 * msPerHour)))
    with (HourFromTime (LocalTime tz t))
    by (unfold HourFromTime, LocalTime, msPerDay, msPerHour; Z.div_mod_to_equations; lia).
  destruct (HourFromTime (LocalTime tz t)); symmetry;
    [by apply bool_decide_eq_true_2|by apply bool_decide_eq_false_2..].
Qed.

Lemma renderMark_all_or_none_witness :
  renderMark_shown 0 (initialState t_2024_06_15_12h) 48 =
  bool_decide (HourFromTime (LocalTime 0 t_2024_06_15_12h) = 0).
Proof.
  apply (renderMark_all_or_none 0 t_2024_06_15_12h 48 (initialState t_2024_06_15_12h)).
  - done.
  - by vm_compute.
  - apply (bool_decide_unpack _). by vm_compute.
Defined.

(** X18.  The quick-selection buttons keep the timeline selection inside the
    720-hour window with start <= end.  "Last 24h" and "Last Week" keep the
    end of the range and select min(24, end + 1) and min(168, end + 1) hours;
    "Now" selects hour 360 in single mode and the 25 hours 348..372 in range
    mode. *)
Theorem quick_buttons_keep_timeline_ok :
  ∀ st : DashboardState,
    timeline_ok (timeline st) →
    timeline_ok (timeline (nowButton st)) ∧
    timeline_ok (timeline (last24hButton st)) ∧
    timeline_ok (timeline (lastWeekButton st)) ∧
    (selectedRange (timeline (last24hButton st))).2 = (selectedRange (timeline st)).2 ∧
    durationHours (last24hButton st) = Z.min 24 ((selectedRange (timeline st)).2 + 1) ∧
    (selectedRange (timeline (lastWeekButton st))).2 = (selectedRange (timeline st)).2 ∧
    durationHours (lastWeekButton st) = Z.min 168 ((selectedRange (timeline st)).2 + 1) ∧
    match mode (timeline st) with
    | single => selectedHour (timeline (nowButton st)) = 360
    | range => selectedRange (timeline (nowButton st)) = (348, 372) ∧
               durationHours (nowButton st) = 25
    end.
Proof.
  intros st (Hh & Hs & Hse & He).
  unfold timeline_ok, nowButton, last24hButton, lastWeekButton, durationHours.
  destruct (mode (timeline st)); simpl; repeat split; lia.
Qed.

Lemma quick_buttons_keep_timeline_ok_witness :
  timeline_ok (timeline (last24hButton (initialState t_2024_06_15_12h))) ∧
  durationHours (last24hButton (initialState t_2024_06_15_12h)) = 24.
Proof.
  pose proof (quick_buttons_keep_timeline_ok (initialState t_2024_06_15_12h)) as H.
  destruct H as (_ & Hok & _ & _ & Hd & _).
  - unfold timeline_ok. simpl. lia.
  - split; [exact Hok|exact Hd].
Defined.

(** ** The weather-data cache *)

(** X19.  [setWeatherData] stores a series under a polygon id, replacing the
    previous one wholesale, and touches nothing else: reading the id back
    gives the stored series, other ids keep their entries, a second write
    for the same id makes the first one unobservable, and the value resolved
    for any other polygon is unchanged. *)
Theorem setWeatherData_replaces_one_entry :
  ∀ (tz : Z) (st : DashboardState) (id id' : string) (data data' : list WeatherData),
    weatherData (setWeatherData id data st) !! id = Some data ∧
    setWeatherData id data' (setWeatherData id data st) = setWeatherData id data' st ∧
    polygons (setWeatherData id data st) = polygons st ∧
    timeline (setWeatherData id data st) = timeline st ∧
    dataSources (setWeatherData id data st) = dataSources st ∧
    (id ≠ id' →
     weatherData (setWeatherData id data st) !! id' = weatherData st !! id' ∧
     getPolygonCurrentValue tz (setWeatherData id data st) id' =
       getPolygonCurrentValue tz st id').
Proof.
  intros tz st id id' data data'. split_and!; try done.
  - apply lookup_insert_eq.
  - unfold setWeatherData. simpl. by rewrite insert_insert_eq.
  - intros Hne.
    assert (weatherData (setWeatherData id data st) !! id' = weatherData st !! id') as Hl
      by by apply lookup_insert_ne.
    split; [done|]. unfold getPolygonCurrentValue. by rewrite Hl.
Qed.

(** ** Identifiers built from the clock *)

Section id_facts.

Lemma append_nil_r (a : string) : a +:+ "" = a.
Proof. induction a as [|x a IH]; [done|]. by rewrite append_cons, IH. Qed.

Lemma list_ascii_app (a b : string) :
  String.list_ascii_of_string (a +:+ b) =
  String.list_ascii_of_string a ++ String.list_ascii_of_string b.
Proof.
  induction a as [|x a IH]; [done|].
  rewrite append_cons. cbn [String.list_ascii_of_string]. by rewrite IH.
Qed.

Lemma decimal_value_snoc (D : string) (c : ascii) :
  decimal_value (D +:+ String c "") =
  10 * decimal_value D + (Z.of_nat (nat_of_ascii c) - 48).
Proof. unfold decimal_value. by rewrite list_ascii_app, foldl_app. Qed.

Lemma digit_value (n : Z) : Z.of_nat (nat_of_ascii (digit (n `mod` 10))) - 48 = n `mod` 10.
Proof.
  pose proof (Z.mod_pos_bound n 10 eq_refl) as Hd.
  unfold digit. rewrite nat_ascii_embedding by lia. lia.
Qed.

Lemma nat_digits_S (fuel : nat) (n : Z) (acc : string) :
  nat_digits (S fuel) n acc =
    if bool_decide (n < 10) then String (digit (n `mod` 10)) acc
    else nat_digits fuel (n `div` 10) (String (digit (n `mod` 10)) acc).
Proof. reflexivity. Qed.

Lemma nat_digits_split (fuel : nat) (n : Z) :
  0 ≤ n < 2 ^ Z.of_nat fuel →
  ∃ D, (∀ acc, nat_digits fuel n acc = D +:+ acc) ∧ decimal_value D = n.
Proof.
  revert n. induction fuel as [|fuel IH]; intros n Hn.
  - exists "". split; [done|]. change (0 = n). simpl in Hn. lia.
  - rewrite Nat2Z.inj_succ, Z.pow_succ_r in Hn by lia.
    destruct (decide (n < 10)) as [Hlt|Hge].
    + exists (String (digit (n `mod` 10)) ""). split.
      * intros acc. rewrite nat_digits_S, bool_decide_eq_true_2 by done. done.
      * change (String (digit (n `mod` 10)) "") with ("" +:+ String (digit (n `mod` 10)) "").
        rewrite decimal_value_snoc, digit_value. change (decimal_value "") with 0.
        rewrite Z.mod_small; lia.
    + destruct (IH (n `div` 10)) as (D & HD & Hval).
      { split; [apply Z.div_pos; lia|]. apply Z.div_lt_upper_bound; lia. }
      exists (D +:+ String (digit (n `mod` 10)) ""). split.
      * intros acc. rewrite nat_digits_S, bool_decide_eq_false_2 by done.
        by rewrite HD, append_assoc.
      * rewrite decimal_value_snoc, digit_value, Hval.
        pose proof (Z.div_mod n 10). lia.
Qed.

Lemma toString_value (n : Z) : 0 ≤ n → decimal_value (toString n) = n.
Proof.
  intros Hn. unfold toString. rewrite bool_decide_eq_false_2 by lia.
  destruct (nat_digits_split (Z.to_nat (Z.log2 n) + 1) n) as (D & HD & Hval).
  - split; [done|].
    rewrite Nat2Z.inj_add, Z2Nat.id by apply Z.log2_nonneg.
    destruct (decide (n = 0)) as [->|Hne]; [done|].
    change (Z.of_nat 1) with 1. rewrite Z.add_1_r. apply Z.log2_spec. lia.
  - by rewrite HD, append_nil_r.
Qed.

Lemma polygon_id_at_inj (n m : Z) :
  0 ≤ n → 0 ≤ m → polygon_id_at n = polygon_id_at m → n = m.
Proof.
  intros Hn Hm Heq. unfold polygon_id_at in Heq.
  apply (inj (String.append "polygon_")) in Heq.
  rewrite <- (toString_value n), <- (toString_value m) by done. by rewrite Heq.
Qed.
End id_facts.

(** ** Creating, updating and deleting polygons *)

Section polygon_facts.

Lemma addPolygon_cases (now : Z) (pd : PolygonData) (st : DashboardState) :
  (pd_dataSourceId pd = "" ∧ dataSources st = [] ∧ addPolygon now pd st = Throw TypeError) ∨
  (∃ p, addPolygon now pd st = Normal (with_polygons (polygons st ++ [p]) st) ∧
        pg_id p = polygon_id_at now ∧ pg_color p = "#1890ff" ∧
        pg_points p = pd_points pd ∧ pg_name p = pd_name pd ∧
        pg_centroid p = pd_centroid pd ∧ pg_boundingBox p = pd_boundingBox pd ∧
        (pd_dataSourceId pd ≠ "" → pg_dataSourceId p = pd_dataSourceId pd) ∧
        (pd_dataSourceId pd = "" →
         Some (pg_dataSourceId p) = ds_id <$> head (dataSources st))).
Proof.
  unfold addPolygon. case_bool_decide as Hid.
  - right. eexists. split; [reflexivity|]. by split_and!.
  - destruct (dataSources st) as [|ds dss] eqn:Hds.
    + by left.
    + right. eexists. split; [reflexivity|]. by split_and!.
Qed.

Lemma filter_id_snoc (id : string) (ps : list Polygon) (p : Polygon) :
  pg_id p = id →
  filter (λ q, pg_id q ≠ id) (ps ++ [p]) = filter (λ q, pg_id q ≠ id) ps.
Proof.
  intros Hp. rewrite filter_app, filter_cons, decide_False by by intros [].
  by rewrite filter_nil, app_nil_r.
Qed.

Lemma filter_id_fresh (id : string) (ps : list Polygon) :
  Forall (λ q, pg_id q ≠ id) ps → filter (λ q, pg_id q ≠ id) ps = ps.
Proof.
  induction 1 as [|q ps Hq _ IH]; [done|].
  by rewrite filter_cons, decide_True, IH.
Qed.
End polygon_facts.

(** X20.  [addPolygon] either appends exactly one polygon, with the id built
    from the clock, the colour #1890ff, the given points, name and geometry,
    and the given data source id or, when that is empty, the id of the first
    data source, leaving cache, data sources and timeline untouched; or it
    throws a TypeError, which happens exactly when the given data source id
    is empty and there is no data source at all. *)
Theorem addPolygon_appends_or_throws :
  ∀ (now : Z) (pd : PolygonData) (st : DashboardState),
    match addPolygon now pd st with
    | Normal st' =>
        (∃ p, polygons st' = polygons st ++ [p] ∧
              pg_id p = polygon_id_at now ∧ pg_color p = "#1890ff" ∧
              pg_points p = pd_points pd ∧ pg_name p = pd_name pd ∧
              pg_centroid p = pd_centroid pd ∧ pg_boundingBox p = pd_boundingBox pd ∧
              (pd_dataSourceId pd ≠ "" → pg_dataSourceId p = pd_dataSourceId pd) ∧
              (pd_dataSourceId pd = "" →
               Some (pg_dataSourceId p) = ds_id <$> head (dataSources st))) ∧
        weatherData st' = weatherData st ∧ dataSources st' = dataSources st ∧
        timeline st' = timeline st ∧
        (pd_dataSourceId pd ≠ "" ∨ dataSources st ≠ [])
    | Throw e => e = TypeError ∧ pd_dataSourceId pd = "" ∧ dataSources st = []
    end.
Proof.
  intros now pd st.
  destruct (addPolygon_cases now pd st) as [(? & ? & ->)|(p & -> & Hp)]; [done|].
  split; [by exists p|]. split_and!; try done.
  destruct Hp as (_ & _ & _ & _ & _ & _ & _ & Hhead).
  destruct (decide (pd_dataSourceId pd = "")) as [Hempty|?]; [right|by left].
  specialize (Hhead Hempty). by destruct (dataSources st).
Qed.

(** X21.  Polygon ids come from the millisecond clock.  Distinct
    non-negative clock readings give distinct ids, and removing a freshly
    added polygon by its id restores the polygon list when the id was not in
    use; but two polygons added at the same clock reading share their id,
    and removing by that id deletes both. *)
Theorem polygon_ids_from_the_clock :
  ∀ (now now' : Z) (pd1 pd2 : PolygonData) (st st1 st2 : DashboardState),
    addPolygon now pd1 st = Normal st1 →
    addPolygon now pd2 st1 = Normal st2 →
    (0 ≤ now → 0 ≤ now' → now ≠ now' → polygon_id_at now ≠ polygon_id_at now') ∧
    (Forall (λ p, pg_id p ≠ polygon_id_at now) (polygons st) →
     polygons (removePolygon (polygon_id_at now) st1) = polygons st) ∧
    (∃ p1 p2, polygons st2 = polygons st ++ [p1; p2] ∧ pg_id p1 = pg_id p2) ∧
    polygons (removePolygon (polygon_id_at now) st2) =
      polygons (removePolygon (polygon_id_at now) st).
Proof.
  intros now now' pd1 pd2 st st1 st2 H1 H2.
  destruct (addPolygon_cases now pd1 st) as [(_ & _ & Ht)|(p1 & Hn1 & Hid1 & _)];
    [congruence|].
  destruct (addPolygon_cases now pd2 st1) as [(_ & _ & Ht)|(p2 & Hn2 & Hid2 & _)];
    [congruence|].
  rewrite H1 in Hn1. injection Hn1 as ->. rewrite H2 in Hn2. injection Hn2 as ->.
  split_and!.
  - intros Hn Hn' Hne Heq. by apply Hne, polygon_id_at_inj.
  - intros Hfresh. simpl. by rewrite filter_id_snoc, filter_id_fresh.
  - exists p1, p2. simpl. rewrite <- app_assoc. split; [done|congruence].
  - simpl. by rewrite !filter_id_snoc.
Qed.

Lemma polygon_ids_from_the_clock_witness :
  ∃ st1 st2,
    addPolygon 1718452800000
      {| pd_points := triangle; pd_dataSourceId := "temperature"; pd_name := None;
         pd_centroid := calculateCentroid triangle;
         pd_boundingBox := calculateBoundingBox triangle |}
      (initialState t_2024_06_15_12h) = Normal st1 ∧
    addPolygon 1718452800000
      {| pd_points := square; pd_dataSourceId := ""; pd_name := None;
         pd_centroid := calculateCentroid square;
         pd_boundingBox := calculateBoundingBox square |}
      st1 = Normal st2 ∧
    length (polygons st2) = 2%nat ∧
    polygons (removePolygon (polygon_id_at 1718452800000) st2) =
      polygons (removePolygon (polygon_id_at 1718452800000) (initialState t_2024_06_15_12h)).
Proof.
  eexists _, _. split; [reflexivity|]. split; [reflexivity|]. split; [reflexivity|].
  eapply (polygon_ids_from_the_clock 1718452800000 0
            {| pd_points := triangle; pd_dataSourceId := "temperature"; pd_name := None;
               pd_centroid := calculateCentroid triangle;
               pd_boundingBox := calculateBoundingBox triangle |}
            {| pd_points := square; pd_dataSourceId := ""; pd_name := None;
               pd_centroid := calculateCentroid square;
               pd_boundingBox := calculateBoundingBox square |}
            (initialState t_2024_06_15_12h)); reflexivity.
Defined.

Section createPolygon_facts.

Lemma createPolygon_cases (tz now1 now2 : Z) (points : list (Qc * Qc)) (dsid : string)
    (response : option (list WeatherData)) (st : DashboardState) :
  createPolygon tz now1 now2 points dsid response st = st ∨
  ∃ p, pg_id p = polygon_id_at now1 ∧ pg_points p = points ∧
       pg_centroid p = calculateCentroid points ∧
       pg_boundingBox p = calculateBoundingBox points ∧
       ((createPolygon tz now1 now2 points dsid response st =
           with_polygons (polygons st ++ [p]) st ∧
         (response = None ∨
          fetchWeatherDataForPolygon tz st (polygon_id_at now2)
            (calculateCentroid points) dsid = [])) ∨
        ∃ data, response = Some data ∧
                createPolygon tz now1 now2 points dsid response st =
                  setWeatherData (polygon_id_at now2) data
                    (with_polygons (polygons st ++ [p]) st)).
Proof.
  unfold createPolygon.
  match goal with |- context [addPolygon now1 ?pd st] =>
    destruct (addPolygon_cases now1 pd st)
      as [(_ & _ & ->)|(p & -> & Hid & _ & Hpts & _ & Hc & Hb & _)]
  end; [by left|right].
  exists p. split_and!; try done.
  destruct (fetchWeatherDataForPolygon _ _ _ _ _) as [|r rs]; [left; split; [done|by right]|].
  destruct response as [data|]; [right|left; split; [done|by left]].
  by exists data.
Qed.
End createPolygon_facts.



(** X23.  The derived geometry of the polygons stays in step with their
    vertices: if centroid and bounding box of every stored polygon are the
    ones computed from its points, the same holds after [createPolygon],
    after [handleUpdatePolygonPoints] (which also gives every polygon with
    the edited id the new points), after [removePolygon], after
    [setWeatherData], and after any [updatePolygon] that carries no points,
    centroid or bounding box (renaming, recolouring, changing the data
    source). *)
Theorem geometry_stays_consistent :
  ∀ (tz now1 now2 : Z) (points newPoints : list (Qc * Qc)) (dsid id : string)
    (response : option (list WeatherData)) (data : list WeatherData)
    (updates : PolygonUpdates) (st : DashboardState),
    Forall geometry_consistent (polygons st) →
    Forall geometry_consistent
      (polygons (createPolygon tz now1 now2 points dsid response st)) ∧
    Forall geometry_consistent (polygons (handleUpdatePolygonPoints id newPoints st)) ∧
    Forall (λ p, pg_id p = id → pg_points p = newPoints)
      (polygons (handleUpdatePolygonPoints id newPoints st)) ∧
    Forall geometry_consistent (polygons (removePolygon id st)) ∧
    Forall geometry_consistent (polygons (setWeatherData id data st)) ∧
    (up_points updates = None → up_centroid updates = None →
     up_boundingBox updates = None →
     Forall geometry_consistent (polygons (updatePolygon id updates st))).
Proof.
  intros tz now1 now2 points newPoints dsid id response data updates st Hinv.
  split_and!.
  - destruct (createPolygon_cases tz now1 now2 points dsid response st)
      as [->|(p & _ & Hp & Hc & Hb & [[-> _]|(d & _ & ->)])]; [done| |];
      simpl; (apply Forall_app; split; [done|]);
      (apply Forall_singleton; split; by rewrite Hp).
  - simpl. apply Forall_fmap. eapply Forall_impl; [exact Hinv|].
    intros p Hp. simpl. by case_bool_decide.
  - simpl. apply Forall_fmap, Forall_forall. intros p _. simpl.
    case_bool_decide as Hid; [done|]. simpl. by intros ?.
  - simpl. apply Forall_forall. intros p [_ Hp]%list_elem_of_filter.
    by apply (proj1 (Forall_forall _ _) Hinv).
  - done.
  - intros Hpts Hc Hb. simpl. apply Forall_fmap. eapply Forall_impl; [exact Hinv|].
    intros p [Hpc Hpb]. simpl. case_bool_decide; [|done].
    unfold geometry_consistent, spread_polygon. simpl. by rewrite Hpts, Hc, Hb.
Qed.

Lemma geometry_stays_consistent_witness :
  Forall geometry_consistent
    (polygons (handleUpdatePolygonPoints "polygon_1" square
                 (state_with (single_at (Some t_2024_01_16_10h) 360) []))) ∧
  Forall (λ p, pg_id p = "polygon_1" → pg_points p = square)
    (polygons (handleUpdatePolygonPoints "polygon_1" square
                 (state_with (single_at (Some t_2024_01_16_10h) 360) []))).
Proof.
  pose proof (geometry_stays_consistent 0 0 0 [] square "" "polygon_1" None [] no_updates
                (state_with (single_at (Some t_2024_01_16_10h) 360) [])) as H.
  destruct H as (_ & H1 & H2 & _).
  - by repeat constructor.
  - by split.
Defined.

(** ** The colour effect of the dashboard *)

Section colour_effect.
Variable tz : Z.
Variable snapshot : DashboardState.

Lemma getPolygonCurrentValue_ext (st st' : DashboardState) (id : string) :
  timeline st = timeline st' → weatherData st = weatherData st' →
  getPolygonCurrentValue tz st id = getPolygonCurrentValue tz st' id.
Proof. intros Ht Hw. unfold getPolygonCurrentValue. by rewrite Ht, Hw. Qed.

Lemma fmap_id_fresh (id : string) (f : Polygon → Polygon) (l : list Polygon) :
  id ∉ pg_id <$> l →
  (λ p, if bool_decide (pg_id p = id) then f p else p) <$> l = l.
Proof.
  induction l as [|x l IH]; [done|]. rewrite fmap_cons, not_elem_of_cons.
  intros [Hx Hl]. rewrite fmap_cons, IH by done.
  by rewrite bool_decide_eq_false_2.
Qed.

Lemma updatePolygonColors_fold (rest : list Polygon) :
  ∀ (qs : list Polygon) (store : DashboardState),
    polygons store = qs ++ rest →
    timeline store = timeline snapshot →
    weatherData store = weatherData snapshot →
    dataSources store = dataSources snapshot →
    NoDup (pg_id <$> (qs ++ rest)) →
    Forall (λ p, ∃ v, getPolygonCurrentValue tz snapshot (pg_id p) = Normal v) rest →
    ∃ store' qs',
      foldl (updatePolygonColors_step tz snapshot) (Normal store) rest = Normal store' ∧
      polygons store' = qs ++ qs' ∧
      timeline store' = timeline snapshot ∧
      weatherData store' = weatherData snapshot ∧
      dataSources store' = dataSources snapshot ∧
      selectedPolygonId store' = selectedPolygonId store ∧
      Forall2 (repainted tz snapshot) rest qs'.
Proof.
  induction rest as [|p rest IH]; intros qs store Hps Htl Hwd Hds Hnd Hval.
  - exists store, []. rewrite app_nil_r in *. by split_and!.
  - apply Forall_cons in Hval as [[v Hv] Hval].
    assert (∃ q store1,
      updatePolygonColors_step tz snapshot (Normal store) p = Normal store1 ∧
      polygons store1 = (qs ++ [q]) ++ rest ∧ timeline store1 = timeline snapshot ∧
      weatherData store1 = weatherData snapshot ∧
      dataSources store1 = dataSources snapshot ∧
      selectedPolygonId store1 = selectedPolygonId store ∧
      repainted tz snapshot p q) as (q & store1 & Hstep & Hps1 & Htl1 & Hwd1 & Hds1 & Hsel1 & Hq).
    { unfold updatePolygonColors_step, repainted, same_but_color. simpl.
      destruct (find _ (dataSources snapshot)) as [ds|] eqn:Hfind.
      - rewrite (getPolygonCurrentValue_ext store snapshot) by done.
        rewrite Hv. simpl. case_bool_decide as Hc.
        + eexists (spread_polygon p
                     {| up_id := None; up_points := None; up_dataSourceId := None;
                        up_color := Some (getPolygonColor v (ds_colorRules ds));
                        up_name := None; up_centroid := None; up_boundingBox := None |}), _.
          split; [reflexivity|]. simpl.
          split_and!; try done; try reflexivity; try (by exists v).
          rewrite Hps, fmap_app, fmap_cons, <- app_assoc. simpl.
          rewrite fmap_app, NoDup_app in Hnd. destruct Hnd as (_ & Hdis & Hnd).
          rewrite fmap_cons, NoDup_cons in Hnd. destruct Hnd as [Hp _].
          rewrite bool_decide_eq_true_2 by done.
          rewrite !fmap_id_fresh; [done|done|].
          intros Hin. apply (Hdis _ Hin). by left.
        + exists p, store. split; [done|]. rewrite <- app_assoc. split_and!; try done.
          by exists v.
      - exists p, store. split; [done|]. rewrite <- app_assoc. by split_and!. }
    destruct (IH (qs ++ [q]) store1) as (store' & qs' & Hrun & Hps' & ? & ? & ? & ? & ?);
      try done.
    { destruct Hq as [(Hid & _) _].
      rewrite <- app_assoc. simpl. rewrite fmap_app, fmap_cons, Hid, <- fmap_cons, <- fmap_app.
      done. }
    exists store', (q :: qs'). cbn [foldl]. rewrite Hstep.
    split_and!; [done| |done|done|done|congruence|by constructor].
    by rewrite Hps', <- app_assoc.
Qed.

Lemma updatePolygonColors_result :
  NoDup (pg_id <$> polygons snapshot) →
  Forall (λ p, ∃ v, getPolygonCurrentValue tz snapshot (pg_id p) = Normal v)
         (polygons snapshot) →
  ∃ store,
    updatePolygonColors tz snapshot = Normal store ∧
    timeline store = timeline snapshot ∧
    weatherData store = weatherData snapshot ∧
    dataSources store = dataSources snapshot ∧
    selectedPolygonId store = selectedPolygonId snapshot ∧
    Forall2 (repainted tz snapshot) (polygons snapshot) (polygons store).
Proof.
  intros Hnd Hval.
  destruct (updatePolygonColors_fold (polygons snapshot) [] snapshot)
    as (store & qs & Hrun & Hps & ? & ? & ? & ? & ?); try done.
  exists store. unfold updatePolygonColors. rewrite Hps. by split_and!.
Qed.

Lemma repainted_ids (ps qs : list Polygon) :
  Forall2 (repainted tz snapshot) ps qs → pg_id <$> qs = pg_id <$> ps.
Proof.
  induction 1 as [|p q ps qs [(Hid & _) _] _ IH]; [done|].
  by rewrite !fmap_cons, Hid, IH.
Qed.

Lemma find_by_id (q : Polygon) (l : list Polygon) :
  NoDup (pg_id <$> l) → q ∈ l →
  find (λ p, bool_decide (pg_id p = pg_id q)) l = Some q.
Proof.
  induction l as [|x l IH]; [by intros _ ?%elem_of_nil|].
  rewrite fmap_cons, NoDup_cons. intros [Hx Hl] [->|Hin]%elem_of_cons; simpl.
  - by rewrite bool_decide_eq_true_2.
  - rewrite bool_decide_eq_false_2; [by apply IH|].
    intros Heq. apply Hx. rewrite Heq. by apply list_elem_of_fmap_2.
Qed.
End colour_effect.

(** X25.  The colour effect of the dashboard: when the polygon ids are
    pairwise distinct and the value of every polygon resolves without an
    exception, the effect completes and changes nothing of the store but
    polygon colours.  Every polygon whose data source id is known gets the
    rule colour of its current value under that data source's rules, every
    other polygon keeps its colour; order and all other fields are kept. *)
Theorem updatePolygonColors_repaints_every_polygon :
  ∀ (tz : Z) (snapshot : DashboardState),
    NoDup (pg_id <$> polygons snapshot) →
    Forall (λ p, ∃ v, getPolygonCurrentValue tz snapshot (pg_id p) = Normal v)
           (polygons snapshot) →
    ∃ store,
      updatePolygonColors tz snapshot = Normal store ∧
      timeline store = timeline snapshot ∧
      weatherData store = weatherData snapshot ∧
      dataSources store = dataSources snapshot ∧
      selectedPolygonId store = selectedPolygonId snapshot ∧
      Forall2 (repainted tz snapshot) (polygons snapshot) (polygons store).
Proof. intros tz snapshot. apply updatePolygonColors_result. Qed.

Lemma updatePolygonColors_repaints_witness :
  ∃ store,
    updatePolygonColors 0 (state_with (range_at None 0 1)
                             [reading "2024-01-01T00:00" 12; reading "2024-01-01T01:00" 30])
      = Normal store ∧
    pg_color <$> polygons store = ["#52c41a"].
Proof.
  destruct (updatePolygonColors_repaints_every_polygon 0
              (state_with (range_at None 0 1)
                 [reading "2024-01-01T00:00" 12; reading "2024-01-01T01:00" 30]))
    as (store & Hrun & _).
  - apply NoDup_singleton.
  - constructor; [|constructor]. by apply getPolygonCurrentValue_range_total.
  - exists store. split; [done|].
    assert (Normal store = updatePolygonColors 0 (state_with (range_at None 0 1)
              [reading "2024-01-01T00:00" 12; reading "2024-01-01T01:00" 30])) as Heq by done.
    vm_compute in Heq. by injection Heq as ->.
Defined.

(** X26.  After the colour effect, under the same conditions, the colour
    stored with a polygon (the one the sidebar shows) is the colour the map
    component computes for painting it, for every polygon whose data source
    id is known. *)
Theorem stored_colour_is_painted_colour :
  ∀ (tz : Z) (snapshot : DashboardState),
    NoDup (pg_id <$> polygons snapshot) →
    Forall (λ p, ∃ v, getPolygonCurrentValue tz snapshot (pg_id p) = Normal v)
           (polygons snapshot) →
    ∃ store,
      updatePolygonColors tz snapshot = Normal store ∧
      ∀ q, q ∈ polygons store →
           pg_dataSourceId q ∈ ds_id <$> dataSources store →
           mapPolygonColor tz store (pg_id q) = Normal (pg_color q).
Proof.
  intros tz snapshot Hnd Hval.
  destruct (updatePolygonColors_result tz snapshot Hnd Hval)
    as (store & Hrun & Htl & Hwd & Hds & _ & Hps).
  exists store. split; [done|]. intros q Hq Hsrc.
  pose proof (repainted_ids _ _ _ _ Hps) as Hids.
  apply list_elem_of_lookup in Hq as [i Hi].
  destruct (Forall2_lookup_r _ _ _ _ _ Hps Hi) as (p & Hp & (Hid & _ & Hdsid & _) & Hcol).
  unfold mapPolygonColor.
  rewrite find_by_id; [|by rewrite Hids|by eapply list_elem_of_lookup_2].
  rewrite Hds, Hdsid in *.
  destruct (find _ (dataSources snapshot)) as [ds|] eqn:Hfind.
  - destruct Hcol as (v & Hv & ->).
    rewrite (getPolygonCurrentValue_ext tz store snapshot), Hid, Hv by done. done.
  - exfalso. apply list_elem_of_fmap in Hsrc as (ds & Hds' & Hin).
    apply list_elem_of_In in Hin.
    pose proof (find_none _ _ Hfind ds Hin) as Hf. simpl in Hf.
    by rewrite bool_decide_eq_true_2 in Hf.
Qed.


Lemma stored_colour_is_painted_colour_witness :
  ∃ store,
    updatePolygonColors 0 (state_with (range_at None 0 1)
                             [reading "2024-01-01T00:00" 12; reading "2024-01-01T01:00" 30])
      = Normal store ∧
    ∀ q, q ∈ polygons store →
         pg_dataSourceId q ∈ ds_id <$> dataSources store →
         mapPolygonColor 0 store (pg_id q) = Normal (pg_color q).
Proof.
  apply (stored_colour_is_painted_colour 0
           (state_with (range_at None 0 1)
              [reading "2024-01-01T00:00" 12; reading "2024-01-01T01:00" 30])).
  - apply NoDup_singleton.
  - constructor; [|constructor]. by apply getPolygonCurrentValue_range_total.
Defined.
